(** * High-symmetry k-paths of pymatgen: [pymatgen/symmetry/bandstructure.py]

    A shallow embedding of the class [HighSymmKpath]: the 23 path-variant
    methods, the dispatch performed by the constructor, the [kpath] and
    [name] properties and the sampler [get_kpoints].

    Numbers.  The program computes with IEEE doubles.  The lattice lengths
    are kept as doubles ([float], the binary64 numbers of the kernel), taken
    finite, and the face-centred orthorhombic test of the constructor,
    [1 / a ** 2] against [1 / b ** 2 + 1 / c ** 2], is computed in binary64
    with the operations the program performs, and compared as the program
    compares.  The tests that compare a stored double with another stored
    double or with a constant ([c < a], an angle against 90) are exact in
    doubles; there the doubles are read as the real numbers they stand for
    ([R]).  The coordinates of the k-points and the ratio of the
    base-centred monoclinic test go through [cos], [sin], [tan] and [pi];
    they are read over the reals, with the mathematical functions.  The
    sampler is read over the reals as well: the number of points it puts on
    a leg is the ceiling of the real product of length and density, which
    can differ by one from the ceiling of the rounded product the program
    takes.  The properties stated of the sampler are therefore those the
    rounding leaves alone: which exception is raised and on which leg, the
    order of the legs, and counts at inputs where every intermediate value
    is an exact double.  Integers ([nb], the loop index) are [Z].  The one
    division whose divisor can be zero on a run of the program,
    [float(i) / float(nb)] in [get_kpoints], raises [ZeroDivisionError] in
    Python and is modelled with that error.

    Collaborators.  [SymmetryFinder] and [Lattice] live outside this file of
    the repository; they enter as records of the values the class reads from
    them. *)

From Stdlib Require Import PrimFloat SpecFloat FloatOps.
From Stdlib Require Import Reals Lra Lia ZArith Machin.
From stdpp Require Import gmap strings list.

Open Scope R_scope.

(** ** Comparisons and rounding *)

(** Python's [x < y], [x > y] and [x == y] on numbers. *)
Definition ltb (x y : R) : bool := if Rlt_dec x y then true else false.
Definition gtb (x y : R) : bool := ltb y x.
Definition eqb (x y : R) : bool := if Req_dec_T x y then true else false.

(** [int(ceil(x))]: the least integer not below [x]. *)
Definition ceil (x : R) : Z := (- Int_part (- x))%Z.

(** [sub in s] for Python strings: [sub] occurs in [s] as a substring. *)
Fixpoint str_in (sub s : string) : bool :=
  if String.prefix sub s then true
  else match s with
       | EmptyString => false
       | String _ s' => str_in sub s'
       end.

(** ** Doubles *)

(** Python's [x > y] and [x < y] on doubles: the IEEE comparison, false
    when an operand is not a number. *)
Definition float_gt (x y : float) : bool :=
  match PrimFloat.compare x y with
  | FGt => true
  | _ => false
  end.
Definition float_lt (x y : float) : bool :=
  match PrimFloat.compare x y with
  | FLt => true
  | _ => false
  end.

(** [x ** 2] on a double: the square, rounded once to the nearest double. *)
Definition float_sqr (x : float) : float := (x * x)%float.

(** The finite double [x] as a fraction: numerator and denominator. *)
Definition float_fraction (x : float) : Z * Z :=
  match Prim2SF x with
  | S754_finite s m e =>
      let n := if s then Z.neg m else Z.pos m in
      if (0 <=? e)%Z then (n * 2 ^ e, 1)%Z else (n, 2 ^ (- e))%Z
  | _ => (0, 1)%Z
  end.

(** The real number a finite double stands for. *)
Definition float_value (x : float) : R :=
  IZR (fst (float_fraction x)) / IZR (snd (float_fraction x)).

(** ** Data model *)

(** [np.array([x, y, z])]. *)
Definition vec3 : Type := R * R * R.

Definition vadd (u v : vec3) : vec3 :=
  let '(a, b, c) := u in let '(x, y, z) := v in (a + x, b + y, c + z).
Definition vsub (u v : vec3) : vec3 :=
  let '(a, b, c) := u in let '(x, y, z) := v in (a - x, b - y, c - z).
Definition vscale (t : R) (v : vec3) : vec3 :=
  let '(x, y, z) := v in (t * x, t * y, t * z).
(** [np.linalg.norm]. *)
Definition norm (v : vec3) : R :=
  let '(x, y, z) := v in sqrt (x * x + y * y + z * z).

(** The dictionary [{'kpoints': ..., 'path': ...}] every variant returns. *)
Record KPath := mkKPath {
  kpoints : gmap string vec3;
  path : list (list string)
}.

(** A Python dictionary display [{k1: v1, ...}]. *)
Definition dict (l : list (string * vec3)) : gmap string vec3 := list_to_map l.

(** What the class reads from a [Lattice]: the three lengths
    ([lengths_and_angles[0]], the doubles behind [abc]), the angle triple
    [lengths_and_angles[1]] (in degrees) and [get_cartesian_coords]. *)
Record Lattice := mkLattice {
  lengths : float * float * float;
  angles : vec3;
  get_cartesian_coords : vec3 -> vec3
}.

(** [lattice.a], [lattice.b], [lattice.c]. *)
Definition len_a (l : Lattice) : float := let '(a, _, _) := lengths l in a.
Definition len_b (l : Lattice) : float := let '(_, b, _) := lengths l in b.
Definition len_c (l : Lattice) : float := let '(_, _, c) := lengths l in c.

(** [abc], read as real numbers. *)
Definition abc (l : Lattice) : vec3 :=
  (float_value (len_a l), float_value (len_b l), float_value (len_c l)).

Arguments float_value : simpl never.

(** What the constructor reads from the [SymmetryFinder]. *)
Record SymmetryFinder := mkSymmetryFinder {
  get_lattice_type : string;
  get_spacegroup_symbol : string;
  conv_lattice : Lattice;      (* get_conventional_standard_structure().lattice *)
  prim_lattice : Lattice;      (* get_primitive_standard_structure().lattice *)
  prim_reciprocal : Lattice    (* ... .lattice.reciprocal_lattice *)
}.

(** The attributes of an instance that the modelled methods touch.  [_name]
    is [None] while the attribute does not exist; [_kpath] is [None] while
    it holds Python's [None]. *)
Record HighSymmKpath := mkHighSymmKpath {
  _prim_rec : Lattice;
  _name : option string;
  _kpath : option KPath
}.

Definition set_name (n : string) (self : HighSymmKpath) : HighSymmKpath :=
  {| _prim_rec := _prim_rec self; _name := Some n; _kpath := _kpath self |}.
Definition set_kpath (k : KPath) (self : HighSymmKpath) : HighSymmKpath :=
  {| _prim_rec := _prim_rec self; _name := _name self; _kpath := Some k |}.

(** A method that updates the instance and returns a value. *)
Definition method (A : Type) : Type := HighSymmKpath -> HighSymmKpath * A.

(** The body shared by all variants: [self._name = n; ...; return k]. *)
Definition variant (n : string) (k : KPath) : method KPath :=
  fun self => (set_name n self, k).

(** [self._kpath = self.m(...)]. *)
Definition assign (m : method KPath) (self : HighSymmKpath) : HighSymmKpath :=
  let '(self', k) := m self in set_kpath k self'.

(** A one-armed [if]. *)
Definition when (b : bool) (f : HighSymmKpath -> HighSymmKpath)
  (self : HighSymmKpath) : HighSymmKpath :=
  if b then f self else self.

(** Statement sequencing. *)
Definition andthen (f g : HighSymmKpath -> HighSymmKpath)
  : HighSymmKpath -> HighSymmKpath := fun self => g (f self).
Infix ">>>" := andthen (at level 61, left associativity).

Open Scope string_scope.

(** ** The 23 path variants

    Each method sets [self._name] and returns the dictionary of its labelled
    points and path segments.  Entries are in the order of the source. *)

Definition cubic : method KPath :=
  variant "CUB"
    {| kpoints := dict [("\Gamma", (0.0, 0.0, 0.0));
                        ("X", (0.0, 0.5, 0.0));
                        ("R", (0.5, 0.5, 0.5));
                        ("M", (0.5, 0.5, 0.0))];
       path := [["\Gamma"; "X"; "M"; "\Gamma"; "R"; "X"];
                ["M"; "R"]] |}.

Definition fcc : method KPath :=
  variant "FCC"
    {| kpoints := dict [("\Gamma", (0.0, 0.0, 0.0));
                        ("K", (3.0 / 8.0, 3.0 / 8.0, 3.0 / 4.0));
                        ("L", (0.5, 0.5, 0.5));
                        ("U", (5.0 / 8.0, 1.0 / 4.0, 5.0 / 8.0));
                        ("W", (0.5, 1.0 / 4.0, 3.0 / 4.0));
                        ("X", (0.5, 0.0, 0.5))];
       path := [["\Gamma"; "X"; "W"; "K"; "\Gamma"; "L"; "U"; "W"; "L"; "K"];
                ["U"; "X"]] |}.

Definition bcc : method KPath :=
  variant "BCC"
    {| kpoints := dict [("\Gamma", (0.0, 0.0, 0.0));
                        ("H", (0.5, -0.5, 0.5));
                        ("P", (0.25, 0.25, 0.25));
                        ("N", (0.0, 0.0, 0.5))];
       path := [["\Gamma"; "H"; "N"; "\Gamma"; "P"; "H"];
                ["P"; "N"]] |}.

Definition tet : method KPath :=
  variant "TET"
    {| kpoints := dict [("\Gamma", (0.0, 0.0, 0.0));
                        ("A", (0.5, 0.5, 0.5));
                        ("M", (0.5, 0.5, 0.0));
                        ("R", (0.0, 0.5, 0.5));
                        ("X", (0.0, 0.5, 0.0));
                        ("Z", (0.0, 0.0, 0.5))];
       path := [["\Gamma"; "X"; "M"; "\Gamma"; "Z"; "R"; "A"; "Z"];
                ["X"; "R"];
                ["M"; "A"]] |}.

Definition bctet1 (c a : R) : method KPath :=
  let eta := (1 + c ^ 2 / a ^ 2) / 4.0 in
  variant "BCT1"
    {| kpoints := dict [("\Gamma", (0.0, 0.0, 0.0));
                        ("M", (-0.5, 0.5, 0.5));
                        ("N", (0.0, 0.5, 0.0));
                        ("P", (0.25, 0.25, 0.25));
                        ("X", (0.0, 0.0, 0.5));
                        ("Z", (eta, eta, - eta));
                        ("Z_1", (- eta, 1 - eta, eta))];
       path := [["\Gamma"; "X"; "M"; "\Gamma"; "Z"; "P"; "N"; "Z_1"; "M"];
                ["X"; "P"]] |}.

Definition bctet2 (c a : R) : method KPath :=
  let eta := (1 + a ^ 2 / c ^ 2) / 4.0 in
  let zeta := a ^ 2 / (2 * c ^ 2) in
  variant "BCT2"
    {| kpoints := dict [("\Gamma", (0.0, 0.0, 0.0));
                        ("N", (0.0, 0.5, 0.0));
                        ("P", (0.25, 0.25, 0.25));
                        ("\Sigma", (- eta, eta, eta));
                        ("\Sigma_1", (eta, 1 - eta, - eta));
                        ("X", (0.0, 0.0, 0.5));
                        ("Y", (- zeta, zeta, 0.5));
                        ("Y_1", (0.5, 0.5, - zeta));
                        ("Z", (0.5, 0.5, -0.5))];
       path := [["\Gamma"; "X"; "Y"; "\Sigma"; "\Gamma"; "Z";
                 "\Sigma_1"; "N"; "P"; "Y_1"; "Z"];
                ["X"; "P"]] |}.

Definition orc : method KPath :=
  variant "ORC"
    {| kpoints := dict [("\Gamma", (0.0, 0.0, 0.0));
                        ("R", (0.5, 0.5, 0.5));
                        ("S", (0.5, 0.5, 0.0));
                        ("T", (0.0, 0.5, 0.5));
                        ("U", (0.5, 0.0, 0.5));
                        ("X", (0.5, 0.0, 0.0));
                        ("Y", (0.0, 0.5, 0.0));
                        ("Z", (0.0, 0.0, 0.5))];
       path := [["\Gamma"; "X"; "S"; "Y"; "\Gamma"; "Z"; "U"; "R"; "T"; "Z"];
                ["Y"; "T"];
                ["U"; "X"];
                ["S"; "R"]] |}.

Definition orcf1 (a b c : R) : method KPath :=
  let zeta := (1 + a ^ 2 / b ^ 2 - a ^ 2 / c ^ 2) / 4 in
  let eta := (1 + a ^ 2 / b ^ 2 + a ^ 2 / c ^ 2) / 4 in
  variant "ORCF1"
    {| kpoints := dict [("\Gamma", (0.0, 0.0, 0.0));
                        ("A", (0.5, 0.5 + zeta, zeta));
                        ("A_1", (0.5, 0.5 - zeta, 1 - zeta));
                        ("L", (0.5, 0.5, 0.5));
                        ("T", (1, 0.5, 0.5));
                        ("X", (0.0, eta, eta));
                        ("X_1", (1, 1 - eta, 1 - eta));
                        ("Y", (0.5, 0.0, 0.5));
                        ("Z", (0.5, 0.5, 0.0))];
       path := [["\Gamma"; "Y"; "T"; "Z"; "\Gamma"; "X"; "A_1"; "Y"];
                ["T"; "X_1"];
                ["X"; "A"; "Z"];
                ["L"; "\Gamma"]] |}.

Definition orcf2 (a b c : R) : method KPath :=
  let phi := (1 + c ^ 2 / b ^ 2 - c ^ 2 / a ^ 2) / 4 in
  let eta := (1 + a ^ 2 / b ^ 2 - a ^ 2 / c ^ 2) / 4 in
  let delta := (1 + b ^ 2 / a ^ 2 - b ^ 2 / c ^ 2) / 4 in
  variant "ORCF2"
    {| kpoints := dict [("\Gamma", (0.0, 0.0, 0.0));
                        ("C", (0.5, 0.5 - eta, 1 - eta));
                        ("C_1", (0.5, 0.5 + eta, eta));
                        ("D", (0.5 - delta, 0.5, 1 - delta));
                        ("D_1", (0.5 + delta, 0.5, delta));
                        ("L", (0.5, 0.5, 0.5));
                        ("H", (1 - phi, 0.5 - phi, 0.5));
                        ("H_1", (phi, 0.5 + phi, 0.5));
                        ("X", (0.0, 0.5, 0.5));
                        ("Y", (0.5, 0.0, 0.5));
                        ("Z", (0.5, 0.5, 0.0))];
       path := [["\Gamma"; "Y"; "C"; "D"; "X"; "\Gamma"; "Z"; "D_1"; "H"; "C"];
                ["C_1"; "Z"];
                ["X"; "H_1"];
                ["H"; "Y"];
                ["L"; "\Gamma"]] |}.

Definition orcf3 (a b c : R) : method KPath :=
  let zeta := (1 + a ^ 2 / b ^ 2 - a ^ 2 / c ^ 2) / 4 in
  let eta := (1 + a ^ 2 / b ^ 2 + a ^ 2 / c ^ 2) / 4 in
  variant "ORCF3"
    {| kpoints := dict [("\Gamma", (0.0, 0.0, 0.0));
                        ("A", (0.5, 0.5 + zeta, zeta));
                        ("A_1", (0.5, 0.5 - zeta, 1 - zeta));
                        ("L", (0.5, 0.5, 0.5));
                        ("T", (1, 0.5, 0.5));
                        ("X", (0.0, eta, eta));
                        ("X_1", (1, 1 - eta, 1 - eta));
                        ("Y", (0.5, 0.0, 0.5));
                        ("Z", (0.5, 0.5, 0.0))];
       path := [["\Gamma"; "Y"; "T"; "Z"; "\Gamma"; "X"; "A_1"; "Y"];
                ["X"; "A"; "Z"];
                ["L"; "\Gamma"]] |}.

Definition orci (a b c : R) : method KPath :=
  let zeta := (1 + a ^ 2 / c ^ 2) / 4 in
  let eta := (1 + b ^ 2 / c ^ 2) / 4 in
  let delta := (b ^ 2 - a ^ 2) / (4 * c ^ 2) in
  let mu := (a ^ 2 + b ^ 2) / (4 * c ^ 2) in
  variant "ORCI"
    {| kpoints := dict [("\Gamma", (0.0, 0.0, 0.0));
                        ("L", (- mu, mu, 0.5 - delta));
                        ("L_1", (mu, - mu, 0.5 + delta));
                        ("L_2", (0.5 - delta, 0.5 + delta, - mu));
                        ("R", (0.0, 0.5, 0.0));
                        ("S", (0.5, 0.0, 0.0));
                        ("T", (0.0, 0.0, 0.5));
                        ("W", (0.25, 0.25, 0.25));
                        ("X", (- zeta, zeta, zeta));
                        ("X_1", (zeta, 1 - zeta, - zeta));
                        ("Y", (eta, - eta, eta));
                        ("Y_1", (1 - eta, eta, - eta));
                        ("Z", (0.5, 0.5, -0.5))];
       path := [["\Gamma"; "X"; "L"; "T"; "W"; "R"; "X_1"; "Z";
                 "\Gamma"; "Y"; "S"; "W"];
                ["L_1"; "Y"];
                ["Y_1"; "Z"]] |}.

Definition orcc (a b c : R) : method KPath :=
  let zeta := (1 + a ^ 2 / b ^ 2) / 4 in
  variant "ORCC"
    {| kpoints := dict [("\Gamma", (0.0, 0.0, 0.0));
                        ("A", (zeta, zeta, 0.5));
                        ("A_1", (- zeta, 1 - zeta, 0.5));
                        ("R", (0.0, 0.5, 0.5));
                        ("S", (0.0, 0.5, 0.0));
                        ("T", (-0.5, 0.5, 0.5));
                        ("X", (zeta, zeta, 0.0));
                        ("X_1", (- zeta, 1 - zeta, 0.0));
                        ("Y", (-0.5, 0.5, 0));
                        ("Z", (0.0, 0.0, 0.5))];
       path := [["\Gamma"; "X"; "S"; "R"; "A"; "Z";
                 "\Gamma"; "Y"; "X_1"; "A_1"; "T"; "Y"];
                ["Z"; "T"]] |}.

Definition hex : method KPath :=
  variant "HEX"
    {| kpoints := dict [("\Gamma", (0.0, 0.0, 0.0));
                        ("A", (0.0, 0.0, 0.5));
                        ("H", (1.0 / 3.0, 1.0 / 3.0, 0.5));
                        ("K", (1.0 / 3.0, 1.0 / 3.0, 0.0));
                        ("L", (0.5, 0.0, 0.5));
                        ("M", (0.5, 0.0, 0.0))];
       path := [["\Gamma"; "M"; "K"; "\Gamma"; "A"; "L"; "H"; "A"];
                ["L"; "M"];
                ["K"; "H"]] |}.

Definition rhl1 (alpha : R) : method KPath :=
  let eta := (1 + 4 * cos alpha) / (2 + 4 * cos alpha) in
  let nu := 3.0 / 4.0 - eta / 2.0 in
  variant "RHL1"
    {| kpoints := dict [("\Gamma", (0.0, 0.0, 0.0));
                        ("B", (eta, 0.5, 1.0 - eta));
                        ("B_1", (1.0 / 2.0, 1.0 - eta, eta - 1.0));
                        ("F", (0.5, 0.5, 0.0));
                        ("L", (0.5, 0.0, 0.0));
                        ("L_1", (0.0, 0.0, -0.5));
                        ("P", (eta, nu, nu));
                        ("P_1", (1.0 - nu, 1.0 - nu, 1.0 - eta));
                        ("P_2", (nu, nu, eta - 1.0));
                        ("Q", (1.0 - nu, nu, 0.0));
                        ("X", (nu, 0.0, - nu));
                        ("Z", (0.5, 0.5, 0.5))];
       path := [["\Gamma"; "L"; "B_1"];
                ["B"; "Z"; "\Gamma"; "X"];
                ["Q"; "F"; "P_1"; "Z"];
                ["L"; "P"]] |}.

Definition rhl2 (alpha : R) : method KPath :=
  let eta := 1 / (2 * tan (alpha / 2.0) ^ 2) in
  let nu := 3.0 / 4.0 - eta / 2.0 in
  variant "RHL2"
    {| kpoints := dict [("\Gamma", (0.0, 0.0, 0.0));
                        ("F", (0.5, -0.5, 0.0));
                        ("L", (0.5, 0.0, 0.0));
                        ("P", (1 - nu, - nu, 1 - nu));
                        ("P_1", (nu, nu - 1.0, nu - 1.0));
                        ("Q", (eta, eta, eta));
                        ("Q_1", (1.0 - eta, - eta, - eta));
                        ("Z", (0.5, -0.5, 0.5))];
       path := [["\Gamma"; "P"; "Z"; "Q"; "\Gamma";
                 "F"; "P_1"; "Q_1"; "L"; "Z"]] |}.

Definition mcl (b c alpha : R) : method KPath :=
  let eta := (1 - b * cos alpha / c) / (2 * sin alpha ^ 2) in
  let nu := 0.5 - eta * c * cos alpha / b in
  variant "MCL"
    {| kpoints := dict [("\Gamma", (0.0, 0.0, 0.0));
                        ("A", (0.5, 0.5, 0.0));
                        ("C", (0.0, 0.5, 0.5));
                        ("D", (0.5, 0.0, 0.5));
                        ("D_1", (0.5, 0.5, -0.5));
                        ("E", (0.5, 0.5, 0.5));
                        ("H", (0.0, eta, 1.0 - nu));
                        ("H_1", (0.0, 1.0 - eta, nu));
                        ("H_2", (0.0, eta, - nu));
                        ("M", (0.5, eta, 1.0 - nu));
                        ("M_1", (0.5, 1 - eta, nu));
                        ("M_2", (0.5, 1 - eta, nu));
                        ("X", (0.0, 0.5, 0.0));
                        ("Y", (0.0, 0.0, 0.5));
                        ("Y_1", (0.0, 0.0, -0.5));
                        ("Z", (0.5, 0.0, 0.0))];
       path := [["\Gamma"; "Y"; "H"; "C"; "E"; "M_1"; "A"; "X"; "H_1"];
                ["M"; "D"; "Z"];
                ["Y"; "D"]] |}.

Definition mclc1 (a b c alpha : R) : method KPath :=
  let zeta := (2 - b * cos alpha / c) / (4 * sin alpha ^ 2) in
  let eta := 0.5 + 2 * zeta * c * cos alpha / b in
  let psi := 0.75 - a ^ 2 / (4 * b ^ 2 * sin alpha ^ 2) in
  let phi := psi + (0.75 - psi) * b * cos alpha / c in
  variant "MCLC1"
    {| kpoints := dict [("\Gamma", (0.0, 0.0, 0.0));
                        ("N", (0.5, 0.0, 0.0));
                        ("N_1", (0.0, -0.5, 0.0));
                        ("F", (1 - zeta, 1 - zeta, 1 - eta));
                        ("F_1", (zeta, zeta, eta));
                        ("F_2", (- zeta, - zeta, 1 - eta));
                        ("I", (phi, 1 - phi, 0.5));
                        ("I_1", (1 - phi, phi - 1, 0.5));
                        ("L", (0.5, 0.5, 0.5));
                        ("M", (0.5, 0.0, 0.5));
                        ("X", (1 - psi, psi - 1, 0.0));
                        ("X_1", (psi, 1 - psi, 0.0));
                        ("X_2", (psi - 1, - psi, 0.0));
                        ("Y", (0.5, 0.5, 0.0));
                        ("Y_1", (-0.5, -0.5, 0.0));
                        ("Z", (0.0, 0.0, 0.5))];
       path := [["\Gamma"; "Y"; "F"; "L"; "I"];
                ["I_1"; "Z"; "F_1"];
                ["Y"; "X_1"];
                ["X"; "\Gamma"; "N"];
                ["M"; "\Gamma"]] |}.

Definition mclc2 (a b c alpha : R) : method KPath :=
  let zeta := (2 - b * cos alpha / c) / (4 * sin alpha ^ 2) in
  let eta := 0.5 + 2 * zeta * c * cos alpha / b in
  let psi := 0.75 - a ^ 2 / (4 * b ^ 2 * sin alpha ^ 2) in
  let phi := psi + (0.75 - psi) * b * cos alpha / c in
  variant "MCLC2"
    {| kpoints := dict [("\Gamma", (0.0, 0.0, 0.0));
                        ("N", (0.5, 0.0, 0.0));
                        ("N_1", (0.0, -0.5, 0.0));
                        ("F", (1 - zeta, 1 - zeta, 1 - eta));
                        ("F_1", (zeta, zeta, eta));
                        ("F_2", (- zeta, - zeta, 1 - eta));
                        ("F_3", (1 - zeta, - zeta, 1 - eta));
                        ("I", (phi, 1 - phi, 0.5));
                        ("I_1", (1 - phi, phi - 1, 0.5));
                        ("L", (0.5, 0.5, 0.5));
                        ("M", (0.5, 0.0, 0.5));
                        ("X", (1 - psi, psi - 1, 0.0));
                        ("X_1", (psi, 1 - psi, 0.0));
                        ("X_2", (psi - 1, - psi, 0.0));
                        ("Y", (0.5, 0.5, 0.0));
                        ("Y_1", (-0.5, -0.5, 0.0));
                        ("Z", (0.0, 0.0, 0.5))];
       path := [["\Gamma"; "Y"; "F"; "L"; "I"];
                ["I_1"; "Z"; "F_1"];
                ["N"; "\Gamma"; "M"]] |}.

Definition mclc3 (a b c alpha : R) : method KPath :=
  let mu := (1 + b ^ 2 / a ^ 2) / 4.0 in
  let delta := b * c * cos alpha / (2 * a ^ 2) in
  let zeta := mu - 0.25 + (1 - b * cos alpha / c) / (4 * sin alpha ^ 2) in
  let eta := 0.5 + 2 * zeta * c * cos alpha / b in
  let phi := 1 + zeta - 2 * mu in
  let psi := eta - 2 * delta in
  variant "MCLC3"
    {| kpoints := dict [("\Gamma", (0.0, 0.0, 0.0));
                        ("F", (1 - phi, 1 - phi, 1 - psi));
                        ("F_1", (phi, phi - 1, psi));
                        ("F_2", (1 - phi, - phi, 1 - psi));
                        ("H", (zeta, zeta, eta));
                        ("H_1", (1 - zeta, - zeta, 1 - eta));
                        ("H_2", (- zeta, - zeta, 1 - eta));
                        ("I", (0.5, -0.5, 0.5));
                        ("M", (0.5, 0.0, 0.5));
                        ("N", (0.5, 0.0, 0.0));
                        ("N_1", (0.0, -0.5, 0.0));
                        ("X", (0.5, -0.5, 0.0));
                        ("Y", (mu, mu, delta));
                        ("Y_1", (1 - mu, - mu, - delta));
                        ("Y_2", (- mu, - mu, - delta));
                        ("Y_3", (mu, mu - 1, delta));
                        ("Z", (0.0, 0.0, 0.5))];
       path := [["\Gamma"; "Y"; "F"; "H"; "Z"; "I"; "F_1"];
                ["H_1"; "Y_1"; "X"; "\Gamma"; "N"];
                ["M"; "\Gamma"]] |}.

Definition mclc4 (a b c alpha : R) : method KPath :=
  let mu := (1 + b ^ 2 / a ^ 2) / 4.0 in
  let delta := b * c * cos alpha / (2 * a ^ 2) in
  let zeta := mu - 0.25 + (1 - b * cos alpha / c) / (4 * sin alpha ^ 2) in
  let eta := 0.5 + 2 * zeta * c * cos alpha / b in
  let phi := 1 + zeta - 2 * mu in
  let psi := eta - 2 * delta in
  variant "MCLC4"
    {| kpoints := dict [("\Gamma", (0.0, 0.0, 0.0));
                        ("F", (1 - phi, 1 - phi, 1 - psi));
                        ("F_1", (phi, phi - 1, psi));
                        ("F_2", (1 - phi, - phi, 1 - psi));
                        ("H", (zeta, zeta, eta));
                        ("H_1", (1 - zeta, - zeta, 1 - eta));
                        ("H_2", (- zeta, - zeta, 1 - eta));
                        ("I", (0.5, -0.5, 0.5));
                        ("M", (0.5, 0.0, 0.5));
                        ("N", (0.5, 0.0, 0.0));
                        ("N_1", (0.0, -0.5, 0.0));
                        ("X", (0.5, -0.5, 0.0));
                        ("Y", (mu, mu, delta));
                        ("Y_1", (1 - mu, - mu, - delta));
                        ("Y_2", (- mu, - mu, - delta));
                        ("Y_3", (mu, mu - 1, delta));
                        ("Z", (0.0, 0.0, 0.5))];
       path := [["\Gamma"; "Y"; "F"; "H"; "Z"; "I"];
                ["H_1"; "Y_1"; "X"; "\Gamma"; "N"];
                ["M"; "\Gamma"]] |}.

Definition mclc5 (a b c alpha : R) : method KPath :=
  let zeta := (b ^ 2 / a ^ 2 + (1 - b * cos alpha / c) / sin alpha ^ 2) / 4 in
  let eta := 0.5 + 2 * zeta * c * cos alpha / b in
  let mu := eta / 2 + b ^ 2 / (4 * a ^ 2) - b * c * cos alpha / (2 * a ^ 2) in
  let nu := 2 * mu - zeta in
  let rho := 1 - zeta * a ^ 2 / b ^ 2 in
  let omega := (4 * nu - 1 - b ^ 2 * sin alpha ^ 2 / a ^ 2)
               * c / (2 * b * cos alpha) in
  let delta := zeta * c * cos alpha / b + omega / 2 - 0.25 in
  variant "MCLC5"
    {| kpoints := dict [("\Gamma", (0.0, 0.0, 0.0));
                        ("F", (nu, nu, omega));
                        ("F_1", (1 - nu, 1 - nu, 1 - omega));
                        ("F_2", (nu, nu - 1, omega));
                        ("H", (zeta, zeta, eta));
                        ("H_1", (1 - zeta, - zeta, 1 - eta));
                        ("H_2", (- zeta, - zeta, 1 - eta));
                        ("I", (rho, 1 - rho, 0.5));
                        ("I_1", (1 - rho, rho - 1, 0.5));
                        ("L", (0.5, 0.5, 0.5));
                        ("M", (0.5, 0.0, 0.5));
                        ("N", (0.5, 0.0, 0.0));
                        ("N_1", (0.0, -0.5, 0.0));
                        ("X", (0.5, -0.5, 0.0));
                        ("Y", (mu, mu, delta));
                        ("Y_1", (1 - mu, - mu, - delta));
                        ("Y_2", (- mu, - mu, - delta));
                        ("Y_3", (mu, mu - 1, delta));
                        ("Z", (0.0, 0.0, 0.5))];
       path := [["\Gamma"; "Y"; "F"; "L"; "I"];
                ["I_1"; "Z"; "H"; "F_1"];
                ["H_1"; "Y_1"; "X"; "\Gamma"; "N"];
                ["M"; "\Gamma"]] |}.

Definition tria : method KPath :=
  variant "TRI1a"
    {| kpoints := dict [("\Gamma", (0.0, 0.0, 0.0));
                        ("L", (0.5, 0.5, 0.0));
                        ("M", (0.0, 0.5, 0.5));
                        ("N", (0.5, 0.0, 0.5));
                        ("R", (0.5, 0.5, 0.5));
                        ("X", (0.5, 0.0, 0.0));
                        ("Y", (0.0, 0.5, 0.0));
                        ("Z", (0.0, 0.0, 0.5))];
       path := [["X"; "\Gamma"; "Y"];
                ["L"; "\Gamma"; "Z"];
                ["N"; "\Gamma"; "M"];
                ["R"; "\Gamma"]] |}.

Definition trib : method KPath :=
  variant "TRI1b"
    {| kpoints := dict [("\Gamma", (0.0, 0.0, 0.0));
                        ("L", (0.5, -0.5, 0.0));
                        ("M", (0.0, 0.0, 0.5));
                        ("N", (-0.5, -0.5, 0.5));
                        ("R", (0.0, -0.5, 0.5));
                        ("X", (0.0, -0.5, 0.0));
                        ("Y", (0.5, 0.0, 0.0));
                        ("Z", (-0.5, 0.0, 0.5))];
       path := [["X"; "\Gamma"; "Y"];
                ["L"; "\Gamma"; "Z"];
                ["N"; "\Gamma"; "M"];
                ["R"; "\Gamma"]] |}.

(** ** The constructor

    [self._kpath = None] followed by the cascade of tests on the lattice
    type and on the letters of the space-group symbol.  Inside one lattice
    type the tests are independent [if] statements run in order, so a later
    assignment overwrites an earlier one. *)

Definition fst3 (v : vec3) : R := let '(x, _, _) := v in x.
Definition snd3 (v : vec3) : R := let '(_, y, _) := v in y.
Definition thd3 (v : vec3) : R := let '(_, _, z) := v in z.

(** The quantity compared with 1 in the base-centred monoclinic branch, as
    the source writes it (three times, once per test); [alpha] is the angle
    in degrees as read from the lattice. *)
Definition mclc_ratio (a b c alpha : R) : R :=
  b * cos (alpha * PI / 180) / c + b ^ 2 * sin alpha ^ 2 / a ^ 2.

(** The two sides of the face-centred orthorhombic test, [1 / a ** 2] and
    [1 / b ** 2 + 1 / c ** 2], in double arithmetic. *)
Definition orcf_lhs (a : float) : float := (1 / float_sqr a)%float.
Definition orcf_rhs (b c : float) : float :=
  (1 / float_sqr b + 1 / float_sqr c)%float.

Definition dispatch (sym : SymmetryFinder) : HighSymmKpath -> HighSymmKpath :=
  let lattice_type := get_lattice_type sym in
  let symbol := get_spacegroup_symbol sym in
  let conv := conv_lattice sym in
  let prim := prim_lattice sym in
  let prim_rec := prim_reciprocal sym in
  if String.eqb lattice_type "cubic" then
    when (str_in "P" symbol) (assign cubic) >>>
    when (str_in "F" symbol) (assign fcc) >>>
    when (str_in "I" symbol) (assign bcc)
  else if String.eqb lattice_type "tetragonal" then
    when (str_in "P" symbol) (assign tet) >>>
    when (str_in "I" symbol)
      (let a := fst3 (abc conv) in
       let c := thd3 (abc conv) in
       if ltb c a then assign (bctet1 c a) else assign (bctet2 c a))
  else if String.eqb lattice_type "orthorhombic" then
    let a := fst3 (abc conv) in
    let b := snd3 (abc conv) in
    let c := thd3 (abc conv) in
    when (str_in "P" symbol) (assign orc) >>>
    when (str_in "F" symbol)
      (if float_gt (orcf_lhs (len_a conv))
                   (orcf_rhs (len_b conv) (len_c conv))
       then assign (orcf1 a b c)
       else if float_lt (orcf_lhs (len_a conv))
                        (orcf_rhs (len_b conv) (len_c conv))
       then assign (orcf2 a b c)
       else assign (orcf3 a b c)) >>>
    when (str_in "I" symbol) (assign (orci a b c)) >>>
    when (str_in "C" symbol) (assign (orcc a b c))
  else if String.eqb lattice_type "hexagonal" then
    assign hex
  else if String.eqb lattice_type "rhombohedral" then
    let alpha := fst3 (angles prim) in
    if ltb alpha 90 then assign (rhl1 (alpha * PI / 180))
    else assign (rhl2 (alpha * PI / 180))
  else if String.eqb lattice_type "monoclinic" then
    let a := fst3 (abc conv) in
    let b := snd3 (abc conv) in
    let c := thd3 (abc conv) in
    let alpha := fst3 (angles conv) in
    when (str_in "P" symbol) (assign (mcl b c (alpha * PI / 180))) >>>
    when (str_in "C" symbol)
      (let kgamma := thd3 (angles prim_rec) in
       when (gtb kgamma 90) (assign (mclc1 a b c (alpha * PI / 180))) >>>
       when (eqb kgamma 90) (assign (mclc2 a b c (alpha * PI / 180))) >>>
       when (ltb kgamma 90)
         (when (ltb (mclc_ratio a b c alpha) 1)
            (assign (mclc3 a b c (alpha * PI / 180))) >>>
          when (eqb (mclc_ratio a b c alpha) 1)
            (assign (mclc4 a b c (alpha * PI / 180))) >>>
          when (gtb (mclc_ratio a b c alpha) 1)
            (assign (mclc5 a b c (alpha * PI / 180)))))
  else if String.eqb lattice_type "triclinic" then
    let kalpha := fst3 (angles prim_rec) in
    let kbeta := snd3 (angles prim_rec) in
    let kgamma := thd3 (angles prim_rec) in
    when (gtb kalpha 90 && gtb kbeta 90 && gtb kgamma 90) (assign tria) >>>
    when (ltb kalpha 90 && ltb kbeta 90 && ltb kgamma 90) (assign trib) >>>
    when (gtb kalpha 90 && gtb kbeta 90 && eqb kgamma 90) (assign tria) >>>
    when (ltb kalpha 90 && ltb kbeta 90 && eqb kgamma 90) (assign trib)
  else
    fun self => self.

(** ** Exceptions *)

Inductive exn : Type :=
  | TypeError
  | KeyError (k : string)
  | ZeroDivisionError
  | AttributeError.

Inductive result (A : Type) : Type :=
  | Ok (a : A)
  | Raise (e : exn).
Arguments Ok {A} a.
Arguments Raise {A} e.

#[global] Instance result_ret : MRet result := fun A a => Ok a.
#[global] Instance result_bind : MBind result := fun A B f m =>
  match m with
  | Ok a => f a
  | Raise e => Raise e
  end.

(** [__init__]: the attributes are initialised, [_kpath] to [None], and the
    cascade runs.  No statement of the constructor raises. *)
Definition fresh (sym : SymmetryFinder) : HighSymmKpath :=
  {| _prim_rec := prim_reciprocal sym; _name := None; _kpath := None |}.

Definition init (sym : SymmetryFinder) : result HighSymmKpath :=
  Ok (dispatch sym (fresh sym)).

(** The property [kpath]: [return self._kpath]. *)
Definition kpath (self : HighSymmKpath) : result (option KPath) :=
  Ok (_kpath self).

(** The property [name]: [return self._name]; the attribute exists only
    after a variant method has run. *)
Definition name (self : HighSymmKpath) : result string :=
  match _name self with
  | Some n => Ok n
  | None => Raise AttributeError
  end.

(** ** The sampler [get_kpoints] *)

(** [d[k]] on a dictionary. *)
Definition getitem (d : gmap string vec3) (k : string) : result vec3 :=
  match d !! k with
  | Some v => Ok v
  | None => Raise (KeyError k)
  end.

(** [float(i) / float(nb)] on Python floats. *)
Definition float_div (i nb : Z) : result R :=
  if (nb =? 0)%Z then Raise ZeroDivisionError else Ok (IZR i / IZR nb).

(** [range(lo, hi)]. *)
Definition range (lo hi : Z) : list Z := seqZ lo (hi - lo).

(** The pairs [(b[i-1], b[i])] for [i in range(1, len(b))]. *)
Fixpoint legs (b : list string) : list (string * string) :=
  match b with
  | [] => []
  | x :: t =>
      match t with
      | [] => []
      | y :: _ => (x, y) :: legs t
      end
  end.

(** A [for] loop threading an accumulator; an exception leaves the loop. *)
Fixpoint for_each {A S : Type} (body : S -> A -> result S) (l : list A) (s : S)
  : result S :=
  match l with
  | [] => Ok s
  | x :: l' => s' ← body s x; for_each body l' s'
  end.

(** The point of parameter [i / nb] between [cs] and [ce]. *)
Definition interpolate (cs ce : vec3) (t : R) : vec3 :=
  vadd cs (vscale t (vsub ce cs)).

(** The body of the inner loop: the points sampled on one leg. *)
Definition sample_leg (rec : Lattice) (kp : KPath) (line_density : R)
  (leg : string * string) : result (list vec3) :=
  start ← getitem (kpoints kp) (fst leg);
  end_ ← getitem (kpoints kp) (snd leg);
  let cs := get_cartesian_coords rec start in
  let ce := get_cartesian_coords rec end_ in
  let distance := norm (vsub cs ce) in
  let nb := ceil (distance * line_density) in
  mapM (fun i => t ← float_div i nb; Ok (interpolate cs ce t))
       (range 0 (nb + 1)).

(** [self.kpath['path']] raises [TypeError] on [None]; the two loops extend
    [list_k_points] leg after leg.  The [print b] of the outer loop only
    writes to the standard output and is left out. *)
Definition get_kpoints (self : HighSymmKpath) (line_density : R)
  : result (list vec3) :=
  match _kpath self with
  | None => Raise TypeError
  | Some kp =>
      for_each
        (fun list_k_points b =>
           for_each
             (fun list_k_points leg =>
                pts ← sample_leg (_prim_rec self) kp line_density leg;
                Ok (list_k_points ++ pts)%list)
             (legs b) list_k_points)
        (path kp) []
  end.

(** * Vocabulary of the properties *)

(** ** What "the constructor selects a variant" means

    The instance built for [sym] is the fresh instance on which the variant
    method [m] was called and its result stored, and its [name] is [n]. *)
Definition selects (sym : SymmetryFinder) (n : string) (m : method KPath) : Prop :=
  init sym = Ok (assign m (fresh sym)) /\
  name (assign m (fresh sym)) = Ok n /\
  kpath (assign m (fresh sym)) = Ok (Some (snd (m (fresh sym)))).

(** Every segment has at least two labels and every label of a segment is a
    key of the point dictionary. *)
Definition referential_integrity (kp : KPath) : Prop :=
  Forall (fun seg : list string =>
            (2 <= length seg)%nat /\
            Forall (fun l => is_Some (kpoints kp !! l)) seg)
         (path kp).

Definition has_key (d : gmap string vec3) (l : string) : bool :=
  match d !! l with
  | Some _ => true
  | None => false
  end.

(** The same property as a check that can be run on a dictionary. *)
Definition check_integrity (kp : KPath) : bool :=
  forallb (fun seg =>
             (2 <=? length seg)%nat && forallb (has_key (kpoints kp)) seg)
          (path kp).

(** The dictionaries returned by the variant methods, for given parameters.
    The class defines 23 of them, [cubic] to [trib]; all are listed. *)
Definition all_variants (self : HighSymmKpath) (a b c alpha : R) : list KPath :=
  snd <$> [cubic self; fcc self; bcc self; tet self;
           bctet1 c a self; bctet2 c a self;
           orc self; orcf1 a b c self; orcf2 a b c self; orcf3 a b c self;
           orci a b c self; orcc a b c self;
           hex self; rhl1 alpha self; rhl2 alpha self;
           mcl b c alpha self;
           mclc1 a b c alpha self; mclc2 a b c alpha self;
           mclc3 a b c alpha self; mclc4 a b c alpha self;
           mclc5 a b c alpha self;
           tria self; trib self].

(** The triclinic rows as the claim C6 words them: all three reciprocal
    angles on one side of 90, or exactly one of them, whichever, equal to 90
    and the other two on that side. *)
Definition tri1a_as_stated (ka kb kg : R) : Prop :=
  (ka > 90 /\ kb > 90 /\ kg > 90) \/
  (ka = 90 /\ kb > 90 /\ kg > 90) \/
  (ka > 90 /\ kb = 90 /\ kg > 90) \/
  (ka > 90 /\ kb > 90 /\ kg = 90).

Definition tri1b_as_stated (ka kb kg : R) : Prop :=
  (ka < 90 /\ kb < 90 /\ kg < 90) \/
  (ka = 90 /\ kb < 90 /\ kg < 90) \/
  (ka < 90 /\ kb = 90 /\ kg < 90) \/
  (ka < 90 /\ kb < 90 /\ kg = 90).

Definition no_letter (letters : list string) (symbol : string) : Prop :=
  Forall (fun l => str_in l symbol = false) letters.

(** The inputs for which no test of the cascade succeeds: a lattice type
    outside the seven, a symbol with none of the letters tested for its
    lattice type, or triclinic reciprocal angles outside the four patterns.
    (Hexagonal and rhombohedral inputs always get a path, and so does every
    base-centred monoclinic one.) *)
Definition unsupported (sym : SymmetryFinder) : Prop :=
  let ty := get_lattice_type sym in
  let symbol := get_spacegroup_symbol sym in
  let kalpha := fst3 (angles (prim_reciprocal sym)) in
  let kbeta := snd3 (angles (prim_reciprocal sym)) in
  let kgamma := thd3 (angles (prim_reciprocal sym)) in
  (ty = "cubic" /\ no_letter ["P"; "F"; "I"] symbol) \/
  (ty = "tetragonal" /\ no_letter ["P"; "I"] symbol) \/
  (ty = "orthorhombic" /\ no_letter ["P"; "F"; "I"; "C"] symbol) \/
  (ty = "monoclinic" /\ no_letter ["P"; "C"] symbol) \/
  (ty = "triclinic" /\
   ~ (kalpha > 90 /\ kbeta > 90 /\ (kgamma > 90 \/ kgamma = 90)) /\
   ~ (kalpha < 90 /\ kbeta < 90 /\ (kgamma < 90 \/ kgamma = 90))) \/
  (ty <> "cubic" /\ ty <> "tetragonal" /\ ty <> "orthorhombic" /\
   ty <> "hexagonal" /\ ty <> "rhombohedral" /\ ty <> "monoclinic" /\
   ty <> "triclinic").

(** The ratio as the claim C1 words it: both trigonometric functions take
    the conventional angle converted to radians. *)
Definition mclc_ratio_as_stated (a b c alpha : R) : R :=
  let alpha_rad := alpha * PI / 180 in
  b * cos alpha_rad / c + b ^ 2 * sin alpha_rad ^ 2 / a ^ 2.

(** The Cartesian length of the leg from [s] to [e]. *)
Definition leg_length (rec : Lattice) (s e : vec3) : R :=
  norm (vsub (get_cartesian_coords rec s) (get_cartesian_coords rec e)).

(** The number [nb] of steps the sampler takes on that leg. *)
Definition leg_steps (rec : Lattice) (d : R) (s e : vec3) : Z :=
  ceil (leg_length rec s e * d).

(** The points of a leg cut in [nb] steps. *)
Definition leg_points (cs ce : vec3) (nb : Z) : list vec3 :=
  (fun i => interpolate cs ce (IZR i / IZR nb)) <$> range 0 (nb + 1).

(** The legs of a path, segment after segment. *)
Definition all_legs (kp : KPath) : list (string * string) :=
  concat (legs <$> path kp).

(** The points [pts] of one leg, over the reals: there are
    [ceil (L * d) + 1] of them, the first is the start of the leg, the last
    its end, and the [i]-th is the interpolation at [i / n]. *)
Definition leg_sampled (rec : Lattice) (kp : KPath) (d : R)
  (leg : string * string) (pts : list vec3) : Prop :=
  exists s e,
    kpoints kp !! fst leg = Some s /\
    kpoints kp !! snd leg = Some e /\
    let cs := get_cartesian_coords rec s in
    let ce := get_cartesian_coords rec e in
    let n := leg_steps rec d s e in
    Z.of_nat (length pts) = (n + 1)%Z /\
    head pts = Some cs /\
    last pts = Some ce /\
    forall i, (0 <= i <= n)%Z ->
      pts !! Z.to_nat i = Some (interpolate cs ce (IZR i / IZR n)).

(** * Example inputs *)

(** A cell with orthogonal axes of lengths [a], [b], [c]. *)
Definition orthogonal_cell (a b c : float) : Lattice :=
  {| lengths := (a, b, c);
     angles := (90, 90, 90);
     get_cartesian_coords := fun v =>
       let '(x, y, z) := v in
       (x * float_value a, y * float_value b, z * float_value c) |}.

(** A structure described by its lattice type, its space-group symbol and
    its conventional cell; the primitive cell and its reciprocal are taken
    orthogonal, which is exact for the primitive centring [P]. *)
Definition structure (ty symbol : string) (conv : Lattice) (rec : Lattice)
  : SymmetryFinder :=
  {| get_lattice_type := ty;
     get_spacegroup_symbol := symbol;
     conv_lattice := conv;
     prim_lattice := conv;
     prim_reciprocal := rec |}.

(** A cell known by its angles only, with unit axes. *)
Definition cell_with_angles (alpha beta gamma : R) : Lattice :=
  {| lengths := (1, 1, 1)%float;
     angles := (alpha, beta, gamma);
     get_cartesian_coords := fun v => v |}.

Definition bct_c2_a3 : SymmetryFinder :=
  structure "tetragonal" "I4/mmm" (orthogonal_cell 3 3 2) (orthogonal_cell 1 1 1).
Definition bct_c3_a2 : SymmetryFinder :=
  structure "tetragonal" "I4/mmm" (orthogonal_cell 2 2 3) (orthogonal_cell 1 1 1).


Definition cubic_a1 : SymmetryFinder :=
  structure "cubic" "Pm-3m" (orthogonal_cell 1 1 1)
            (orthogonal_cell 0x1.921fb54442d18p+2 0x1.921fb54442d18p+2
                            0x1.921fb54442d18p+2).

Definition tri_kgamma_90 : SymmetryFinder :=
  structure "triclinic" "P-1" (cell_with_angles 80 80 90) (cell_with_angles 100 100 90).

Definition tri_kalpha_90 : SymmetryFinder :=
  structure "triclinic" "P-1" (cell_with_angles 90 80 80) (cell_with_angles 90 100 100).

Definition tri_kbeta_90 : SymmetryFinder :=
  structure "triclinic" "P-1" (cell_with_angles 100 90 100) (cell_with_angles 80 90 80).

(** An A-centred orthorhombic structure: its symbol has none of the four
    letters the orthorhombic branch looks for. *)
Definition orc_A_centred : SymmetryFinder :=
  structure "orthorhombic" "Amm2" (orthogonal_cell 3 4 5) (orthogonal_cell 1 1 1).

(** A base-centred monoclinic cell with [a = b = c = 1] and [alpha = 60]
    degrees; the reciprocal angles of its primitive cell are about
    (112.2, 112.2, 81.8). *)
Definition mclc_60 : SymmetryFinder :=
  {| get_lattice_type := "monoclinic";
     get_spacegroup_symbol := "C2/m";
     conv_lattice := cell_with_angles 60 90 90;
     prim_lattice := cell_with_angles 60 90 90;
     prim_reciprocal := cell_with_angles 112.2 112.2 81.8 |}.

(** A cubic cell of side [2 pi] (the nearest double): its reciprocal cell
    is the unit cube. *)
Definition cubic_a2pi : SymmetryFinder :=
  structure "cubic" "Pm-3m" (orthogonal_cell 0x1.921fb54442d18p+2 0x1.921fb54442d18p+2
                            0x1.921fb54442d18p+2)
            (orthogonal_cell 1 1 1).

(** A body-centred tetragonal structure whose conventional cell has
    [c = a = 3]; the primitive cell and its reciprocal are arbitrary. *)
Definition bct_tie (prim rec : Lattice) : SymmetryFinder :=
  {| get_lattice_type := "tetragonal";
     get_spacegroup_symbol := "I4/mmm";
     conv_lattice := orthogonal_cell 3 3 3;
     prim_lattice := prim;
     prim_reciprocal := rec |}.

(** Inputs for the rows of the cascade. *)
Definition cubic_F : SymmetryFinder :=
  structure "cubic" "Fm-3m" (orthogonal_cell 4 4 4) (cell_with_angles 60 60 60).
Definition cubic_I : SymmetryFinder :=
  structure "cubic" "Im-3m" (orthogonal_cell 3 3 3) (cell_with_angles 90 90 90).
Definition tet_P : SymmetryFinder :=
  structure "tetragonal" "P4/mmm" (orthogonal_cell 3 3 5) (orthogonal_cell 1 1 1).
Definition orc_P : SymmetryFinder :=
  structure "orthorhombic" "Pmmm" (orthogonal_cell 3 4 5) (orthogonal_cell 1 1 1).
Definition orc_I : SymmetryFinder :=
  structure "orthorhombic" "Immm" (orthogonal_cell 3 4 5) (orthogonal_cell 1 1 1).
Definition orc_C : SymmetryFinder :=
  structure "orthorhombic" "Cmcm" (orthogonal_cell 3 4 5) (orthogonal_cell 1 1 1).
Definition hex_P : SymmetryFinder :=
  structure "hexagonal" "P6/mmm" (cell_with_angles 90 90 120) (cell_with_angles 90 90 60).
Definition rhl_60 : SymmetryFinder :=
  structure "rhombohedral" "R-3m" (cell_with_angles 60 60 60) (cell_with_angles 90 90 90).
Definition rhl_90 : SymmetryFinder :=
  structure "rhombohedral" "R-3m" (cell_with_angles 90 90 90) (cell_with_angles 90 90 90).

Definition mcl_P : SymmetryFinder :=
  structure "monoclinic" "P2/m" (cell_with_angles 80 90 90) (cell_with_angles 100 90 90).
Definition mclc_obtuse : SymmetryFinder :=
  structure "monoclinic" "C2/m" (cell_with_angles 80 90 90) (cell_with_angles 80 80 100).
Definition mclc_right : SymmetryFinder :=
  structure "monoclinic" "C2/m" (cell_with_angles 80 90 90) (cell_with_angles 80 80 90).

(** The variant methods of the class, for given parameters. *)
Definition variant_methods (a b c alpha : R) : list (method KPath) :=
  [cubic; fcc; bcc; tet; bctet1 c a; bctet2 c a;
   orc; orcf1 a b c; orcf2 a b c; orcf3 a b c; orci a b c; orcc a b c;
   hex; rhl1 alpha; rhl2 alpha;
   mcl b c alpha;
   mclc1 a b c alpha; mclc2 a b c alpha; mclc3 a b c alpha;
   mclc4 a b c alpha; mclc5 a b c alpha;
   tria; trib].

(** Both labels of every leg of the path are keys of the dictionary, as a
    check that can be run. *)
Definition legs_known (kp : KPath) : bool :=
  forallb (fun leg => has_key (kpoints kp) (fst leg) && has_key (kpoints kp) (snd leg))
          (all_legs kp).

(** Any two labels that follow each other in a segment of the path are
    keys of the dictionary and have different fractional coordinates. *)
Definition distinct_legs (kp : KPath) : Prop :=
  forall (b : list string) (i : nat) (l0 l1 : string),
    b ∈ path kp -> b !! i = Some l0 -> b !! S i = Some l1 ->
    exists s e,
      kpoints kp !! l0 = Some s /\ kpoints kp !! l1 = Some e /\ s <> e.

(** The variant methods without parameters. *)
Definition parameter_free : list (method KPath) :=
  [cubic; fcc; bcc; tet; orc; hex; tria; trib].

(** The path without its segments of fewer than two labels. *)
Definition drop_short (kp : KPath) : KPath :=
  {| kpoints := kpoints kp;
     path := filter (fun b : list string => (2 <= length b)%nat) (path kp) |}.

(** A dictionary whose only segment ends on a label that is not a key. *)
Definition dangling : KPath :=
  {| kpoints := dict [("A", (0, 0, 0))];
     path := [["A"; "B"]] |}.

(** * Properties *)

(** ** Comparisons *)

Lemma ltb_true x y : x < y -> ltb x y = true.
Proof. unfold ltb. destruct (Rlt_dec x y); tauto. Qed.

Lemma ltb_false x y : ~ x < y -> ltb x y = false.
Proof. unfold ltb. destruct (Rlt_dec x y); tauto. Qed.

Lemma gtb_true x y : x > y -> gtb x y = true.
Proof. intros H. apply ltb_true. exact H. Qed.

Lemma gtb_false x y : ~ x > y -> gtb x y = false.
Proof. intros H. apply ltb_false. exact H. Qed.

Lemma eqb_true x y : x = y -> eqb x y = true.
Proof. unfold eqb. destruct (Req_dec_T x y); tauto. Qed.

Lemma eqb_false x y : x <> y -> eqb x y = false.
Proof. unfold eqb. destruct (Req_dec_T x y); tauto. Qed.

(** Settles the comparisons of a goal from the arithmetic hypotheses. *)
Ltac compare_reals :=
  repeat first
    [ rewrite ltb_true by lra | rewrite ltb_false by lra
    | rewrite gtb_true by lra | rewrite gtb_false by lra
    | rewrite eqb_true by lra | rewrite eqb_false by lra ].

Lemma ltb_spec x y : reflect (x < y) (ltb x y).
Proof. unfold ltb. destruct (Rlt_dec x y); constructor; assumption. Qed.

Lemma gtb_spec x y : reflect (x > y) (gtb x y).
Proof. apply ltb_spec. Qed.

Lemma eqb_spec x y : reflect (x = y) (eqb x y).
Proof. unfold eqb. destruct (Req_dec_T x y); constructor; assumption. Qed.

(** ** Values of doubles *)

(** Computes the fraction of a double literal and leaves an equation
    between rational constants. *)
Ltac float_literal :=
  unfold float_value;
  match goal with
  | |- context [float_fraction ?x] =>
      let v := eval vm_compute in (float_fraction x) in
      change (float_fraction x) with v
  end;
  cbn [fst snd]; lra.

Lemma float_value_1 : float_value 1 = 1.
Proof. float_literal. Qed.

Lemma float_value_2 : float_value 2 = 2.
Proof. float_literal. Qed.

Lemma float_value_3 : float_value 3 = 3.
Proof. float_literal. Qed.

Lemma float_value_4 : float_value 4 = 4.
Proof. float_literal. Qed.

Lemma float_value_5 : float_value 5 = 5.
Proof. float_literal. Qed.

Lemma float_value_12 : float_value 12 = 12.
Proof. float_literal. Qed.

Lemma float_value_15 : float_value 15 = 15.
Proof. float_literal. Qed.

Lemma float_value_20 : float_value 20 = 20.
Proof. float_literal. Qed.

Lemma float_value_108 : float_value 108 = 108.
Proof. float_literal. Qed.

Lemma float_value_135 : float_value 135 = 135.
Proof. float_literal. Qed.

Lemma float_value_180 : float_value 180 = 180.
Proof. float_literal. Qed.

(** Replaces the doubles of the examples by the reals they stand for. *)
Ltac float_values :=
  rewrite ?float_value_1, ?float_value_2, ?float_value_3, ?float_value_4,
    ?float_value_5, ?float_value_12, ?float_value_15, ?float_value_20,
    ?float_value_108, ?float_value_135, ?float_value_180.

Ltac float_values_in H :=
  rewrite ?float_value_1, ?float_value_2, ?float_value_3, ?float_value_4,
    ?float_value_5, ?float_value_12, ?float_value_15, ?float_value_20,
    ?float_value_108, ?float_value_135, ?float_value_180 in H.

(** Reads the lengths of an example cell as real constants. *)
Ltac real_lengths :=
  cbn [abc len_a len_b len_c lengths angles conv_lattice prim_lattice
       prim_reciprocal structure orthogonal_cell cell_with_angles
       fst3 snd3 thd3 get_cartesian_coords];
  float_values.

Ltac real_lengths_in H :=
  cbn [abc len_a len_b len_c lengths angles conv_lattice prim_lattice
       prim_reciprocal structure orthogonal_cell cell_with_angles
       fst3 snd3 thd3 get_cartesian_coords] in H;
  float_values_in H.

(** ** Selection *)

Lemma selects_intro sym n k :
  dispatch sym (fresh sym) = assign (variant n k) (fresh sym) ->
  selects sym n (variant n k).
Proof.
  intros H. unfold selects, init. rewrite H. repeat split.
Qed.

(** ** Dispatch on the lattice type *)

Lemma dispatch_tetragonal_I (sym : SymmetryFinder) :
  get_lattice_type sym = "tetragonal" ->
  str_in "I" (get_spacegroup_symbol sym) = true ->
  let a := fst3 (abc (conv_lattice sym)) in
  let c := thd3 (abc (conv_lattice sym)) in
  dispatch sym (fresh sym) =
  (if ltb c a then assign (bctet1 c a) else assign (bctet2 c a)) (fresh sym).
Proof.
  intros Hlt HI a c. unfold dispatch.
  rewrite Hlt, HI. cbn [String.eqb Ascii.eqb Bool.eqb]. fold a c.
  unfold andthen, when.
  destruct (str_in "P" _); destruct (ltb c a); reflexivity.
Qed.

Lemma dispatch_triclinic (sym : SymmetryFinder) :
  get_lattice_type sym = "triclinic" ->
  let kalpha := fst3 (angles (prim_reciprocal sym)) in
  let kbeta := snd3 (angles (prim_reciprocal sym)) in
  let kgamma := thd3 (angles (prim_reciprocal sym)) in
  dispatch sym =
    (when (gtb kalpha 90 && gtb kbeta 90 && gtb kgamma 90) (assign tria) >>>
     when (ltb kalpha 90 && ltb kbeta 90 && ltb kgamma 90) (assign trib) >>>
     when (gtb kalpha 90 && gtb kbeta 90 && eqb kgamma 90) (assign tria) >>>
     when (ltb kalpha 90 && ltb kbeta 90 && eqb kgamma 90) (assign trib)).
Proof.
  intros Hlt. unfold dispatch. rewrite Hlt. reflexivity.
Qed.

(** What the code does for [kgamma < 90]: it compares [mclc_ratio], whose
    sine takes the angle in degrees, with 1. *)
Lemma dispatch_mclc_acute (sym : SymmetryFinder) :
  get_lattice_type sym = "monoclinic" ->
  str_in "C" (get_spacegroup_symbol sym) = true ->
  thd3 (angles (prim_reciprocal sym)) < 90 ->
  let a := fst3 (abc (conv_lattice sym)) in
  let b := snd3 (abc (conv_lattice sym)) in
  let c := thd3 (abc (conv_lattice sym)) in
  let alpha := fst3 (angles (conv_lattice sym)) in
  (mclc_ratio a b c alpha < 1 ->
     selects sym "MCLC3" (mclc3 a b c (alpha * PI / 180))) /\
  (mclc_ratio a b c alpha = 1 ->
     selects sym "MCLC4" (mclc4 a b c (alpha * PI / 180))) /\
  (mclc_ratio a b c alpha > 1 ->
     selects sym "MCLC5" (mclc5 a b c (alpha * PI / 180))).
Proof.
  intros Hlt HC Hk a b c alpha.
  split; [| split]; intros Hr; apply selects_intro; unfold dispatch;
    rewrite Hlt, HC; cbn [String.eqb Ascii.eqb Bool.eqb];
    fold a b c alpha; compare_reals; unfold andthen, when;
    destruct (str_in "P" _); reflexivity.
Qed.

(** ** Body-centred tetragonal *)

(** C7: for a tetragonal structure whose symbol carries the letter I, the
    constructor selects BCT1 when [c < a] and BCT2 when [c >= a], the tie
    [c = a] included. *)
Theorem C7_bct_split (sym : SymmetryFinder) :
  get_lattice_type sym = "tetragonal" ->
  str_in "I" (get_spacegroup_symbol sym) = true ->
  let a := fst3 (abc (conv_lattice sym)) in
  let c := thd3 (abc (conv_lattice sym)) in
  (c < a -> selects sym "BCT1" (bctet1 c a)) /\
  (c >= a -> selects sym "BCT2" (bctet2 c a)).
Proof.
  intros Hlt HI a c.
  split; intros Hca; apply selects_intro; unfold dispatch;
    rewrite Hlt, HI; cbn [String.eqb Ascii.eqb Bool.eqb];
    fold a c; compare_reals; unfold andthen, when;
    destruct (str_in "P" _); reflexivity.
Qed.

Lemma C7_bct_split_witness :
  selects bct_c2_a3 "BCT1" (bctet1 2 3) /\
  selects bct_c3_a2 "BCT2" (bctet2 3 2).
Proof.
  pose proof (C7_bct_split bct_c2_a3 eq_refl eq_refl) as H1.
  pose proof (C7_bct_split bct_c3_a2 eq_refl eq_refl) as H2.
  unfold bct_c2_a3 in H1. unfold bct_c3_a2 in H2.
  real_lengths_in H1. real_lengths_in H2.
  split; [apply H1 | apply H2]; lra.
Defined.

(** ** Face-centred orthorhombic *)




(** ** Primitive cubic *)

(** C8: for a cubic structure whose symbol carries P (and neither F nor
    I), the constructor builds the variant named CUB, with the four points
    Gamma, X, M, R at the stated coordinates and the two stated segments. *)
Theorem C8_cubic_P (sym : SymmetryFinder) :
  get_lattice_type sym = "cubic" ->
  str_in "P" (get_spacegroup_symbol sym) = true ->
  str_in "F" (get_spacegroup_symbol sym) = false ->
  str_in "I" (get_spacegroup_symbol sym) = false ->
  exists self kp,
    init sym = Ok self /\
    name self = Ok "CUB" /\
    kpath self = Ok (Some kp) /\
    kpoints kp = dict [("\Gamma", (0, 0, 0));
                       ("X", (0, 0.5, 0));
                       ("M", (0.5, 0.5, 0));
                       ("R", (0.5, 0.5, 0.5))] /\
    path kp = [["\Gamma"; "X"; "M"; "\Gamma"; "R"; "X"]; ["M"; "R"]].
Proof.
  intros Hlt HP HF HI.
  eexists _, _. unfold init, dispatch.
  rewrite Hlt, HP, HF, HI. cbn [String.eqb Ascii.eqb Bool.eqb].
  unfold andthen, when.
  split; [reflexivity |]. split; [reflexivity |]. split; [reflexivity |].
  split; [| reflexivity].
  cbn [cubic variant assign set_kpath set_name kpoints snd].
  replace 0.0 with 0 by lra.
  vm_compute. reflexivity.
Qed.

Lemma C8_cubic_P_witness :
  exists self kp,
    init cubic_a1 = Ok self /\
    name self = Ok "CUB" /\
    kpath self = Ok (Some kp) /\
    kpoints kp = dict [("\Gamma", (0, 0, 0));
                       ("X", (0, 0.5, 0));
                       ("M", (0.5, 0.5, 0));
                       ("R", (0.5, 0.5, 0.5))] /\
    path kp = [["\Gamma"; "X"; "M"; "\Gamma"; "R"; "X"]; ["M"; "R"]].
Proof.
  apply (C8_cubic_P cubic_a1); reflexivity.
Defined.

(** ** Referential integrity of the variants *)

Lemma check_integrity_sound kp :
  check_integrity kp = true -> referential_integrity kp.
Proof.
  unfold check_integrity, referential_integrity.
  rewrite forallb_forall, Forall_forall. intros H seg Hin.
  apply list_elem_of_In in Hin.
  specialize (H seg Hin). apply andb_true_iff in H as [Hlen Hkeys].
  split.
  - apply Nat.leb_le. exact Hlen.
  - rewrite Forall_forall. intros l Hl. apply list_elem_of_In in Hl.
    rewrite forallb_forall in Hkeys. specialize (Hkeys l Hl).
    unfold has_key in Hkeys. destruct (kpoints kp !! l); [eauto | discriminate].
Qed.

Lemma all_variants_length self a b c alpha :
  length (all_variants self a b c alpha) = 23%nat.
Proof. reflexivity. Qed.

(** C9: in the dictionary returned by any variant method, for any
    parameters, every label of every path segment is a key of the point
    dictionary, and every segment has at least two labels. *)
Theorem C9_referential_integrity (self : HighSymmKpath) (a b c alpha : R) :
  Forall referential_integrity (all_variants self a b c alpha).
Proof.
  unfold all_variants. cbn [fmap list_fmap].
  repeat (apply Forall_cons; split;
          [apply check_integrity_sound; vm_compute; reflexivity |]).
  apply Forall_nil. exact I.
Qed.

(** ** Primitive monoclinic *)

(** C10: the dictionary of the MCL variant maps the two distinct labels
    M_1 and M_2 to the same vector [(0.5, 1 - eta, nu)]. *)
Theorem C10_mcl_M1_M2 (self : HighSymmKpath) (b c alpha : R) :
  let eta := (1 - b * cos alpha / c) / (2 * sin alpha ^ 2) in
  let nu := 0.5 - eta * c * cos alpha / b in
  let kp := snd (mcl b c alpha self) in
  kpoints kp !! "M_1" = Some (0.5, 1 - eta, nu) /\
  kpoints kp !! "M_2" = Some (0.5, 1 - eta, nu) /\
  "M_1" <> "M_2".
Proof.
  intros eta nu kp. subst kp eta nu.
  split; [| split].
  - vm_compute. reflexivity.
  - vm_compute. reflexivity.
  - discriminate.
Qed.

(** ** Triclinic *)

(** C6, as the code has it: for a triclinic structure the constructor
    selects TRI1a when [kalpha > 90], [kbeta > 90] and [kgamma >= 90], and
    TRI1b when [kalpha < 90], [kbeta < 90] and [kgamma <= 90]; of the three
    angles only [kgamma] may equal 90. *)
Theorem C6_triclinic_kgamma (sym : SymmetryFinder) :
  get_lattice_type sym = "triclinic" ->
  let kalpha := fst3 (angles (prim_reciprocal sym)) in
  let kbeta := snd3 (angles (prim_reciprocal sym)) in
  let kgamma := thd3 (angles (prim_reciprocal sym)) in
  (kalpha > 90 /\ kbeta > 90 /\ (kgamma > 90 \/ kgamma = 90) ->
     selects sym "TRI1a" tria) /\
  (kalpha < 90 /\ kbeta < 90 /\ (kgamma < 90 \/ kgamma = 90) ->
     selects sym "TRI1b" trib).
Proof.
  intros Hlt kalpha kbeta kgamma.
  split; intros (Ha & Hb & Hg); apply selects_intro;
    rewrite (dispatch_triclinic sym Hlt); fold kalpha kbeta kgamma;
    destruct Hg as [Hg | Hg]; compare_reals; reflexivity.
Qed.

Lemma C6_triclinic_kgamma_witness : selects tri_kgamma_90 "TRI1a" tria.
Proof.
  apply (C6_triclinic_kgamma tri_kgamma_90); [reflexivity |].
  simpl. lra.
Defined.

(** At reciprocal angles (90, 100, 100) the claim as stated asks for TRI1a,
    and at (80, 90, 80) for TRI1b; in both cases the constructor leaves the
    path unset and no variant has run. *)
Lemma C6_counterexample :
  (tri1a_as_stated 90 100 100 /\
   ~ selects tri_kalpha_90 "TRI1a" tria /\
   exists self, init tri_kalpha_90 = Ok self /\
                kpath self = Ok None /\ name self = Raise AttributeError) /\
  (tri1b_as_stated 80 90 80 /\
   ~ selects tri_kbeta_90 "TRI1b" trib /\
   exists self, init tri_kbeta_90 = Ok self /\
                kpath self = Ok None /\ name self = Raise AttributeError).
Proof.
  assert (Ha : dispatch tri_kalpha_90 (fresh tri_kalpha_90) = fresh tri_kalpha_90).
  { rewrite dispatch_triclinic by reflexivity. simpl fst3; simpl snd3; simpl thd3.
    compare_reals. reflexivity. }
  assert (Hb : dispatch tri_kbeta_90 (fresh tri_kbeta_90) = fresh tri_kbeta_90).
  { rewrite dispatch_triclinic by reflexivity. simpl fst3; simpl snd3; simpl thd3.
    compare_reals. reflexivity. }
  split; (split; [| split]).
  - right. left. lra.
  - intros (Hinit & _). unfold init in Hinit. rewrite Ha in Hinit.
    discriminate.
  - exists (fresh tri_kalpha_90). unfold init. rewrite Ha. repeat split.
  - right. right. left. lra.
  - intros (Hinit & _). unfold init in Hinit. rewrite Hb in Hinit.
    discriminate.
  - exists (fresh tri_kbeta_90). unfold init. rewrite Hb. repeat split.
Qed.

(** ** Inputs that no branch handles *)

Lemma unsupported_no_path (sym : SymmetryFinder) :
  unsupported sym -> dispatch sym (fresh sym) = fresh sym.
Proof.
  unfold unsupported, no_letter.
  intros [(Hty & H) | [(Hty & H) | [(Hty & H) | [(Hty & H) | [(Hty & H) | H]]]]].
  - unfold dispatch. rewrite Hty. cbn [String.eqb Ascii.eqb Bool.eqb].
    repeat (apply Forall_cons in H as [-> H]). reflexivity.
  - unfold dispatch. rewrite Hty. cbn [String.eqb Ascii.eqb Bool.eqb].
    repeat (apply Forall_cons in H as [-> H]). reflexivity.
  - unfold dispatch. rewrite Hty. cbn [String.eqb Ascii.eqb Bool.eqb].
    repeat (apply Forall_cons in H as [-> H]). reflexivity.
  - unfold dispatch. rewrite Hty. cbn [String.eqb Ascii.eqb Bool.eqb].
    repeat (apply Forall_cons in H as [-> H]). reflexivity.
  - rewrite (dispatch_triclinic sym Hty). destruct H as [Ha Hb].
    destruct (gtb_spec (fst3 (angles (prim_reciprocal sym))) 90);
    destruct (gtb_spec (snd3 (angles (prim_reciprocal sym))) 90);
    destruct (gtb_spec (thd3 (angles (prim_reciprocal sym))) 90);
    destruct (ltb_spec (fst3 (angles (prim_reciprocal sym))) 90);
    destruct (ltb_spec (snd3 (angles (prim_reciprocal sym))) 90);
    destruct (ltb_spec (thd3 (angles (prim_reciprocal sym))) 90);
    destruct (eqb_spec (thd3 (angles (prim_reciprocal sym))) 90);
    try reflexivity; exfalso; tauto.
  - destruct H as (H1 & H2 & H3 & H4 & H5 & H6 & H7).
    unfold dispatch.
    repeat match goal with
           | |- context [String.eqb ?x ?y] =>
               destruct (String.eqb_spec x y); [congruence |]
           end.
    reflexivity.
Qed.

(** Conversely, when the constructor leaves the path unset the input is one
    of those: [unsupported] is exactly the case without a path. *)
Lemma no_path_unsupported (sym : SymmetryFinder) :
  _kpath (dispatch sym (fresh sym)) = None -> unsupported sym.
Proof.
  unfold unsupported, no_letter, dispatch.
  repeat match goal with
         | |- context [String.eqb ?x ?y] => destruct (String.eqb_spec x y)
         end.
  - destruct (str_in "P" (get_spacegroup_symbol sym)) eqn:HP;
    destruct (str_in "F" (get_spacegroup_symbol sym)) eqn:HF;
    destruct (str_in "I" (get_spacegroup_symbol sym)) eqn:HI;
    try discriminate. intros _. left. repeat constructor; assumption.
  - destruct (str_in "P" (get_spacegroup_symbol sym)) eqn:HP;
    destruct (str_in "I" (get_spacegroup_symbol sym)) eqn:HI;
    unfold andthen, when;
    try discriminate; try (destruct (ltb _ _); discriminate).
    intros _. right; left. repeat constructor; assumption.
  - destruct (str_in "P" (get_spacegroup_symbol sym)) eqn:HP;
    destruct (str_in "F" (get_spacegroup_symbol sym)) eqn:HF;
    destruct (str_in "I" (get_spacegroup_symbol sym)) eqn:HI;
    destruct (str_in "C" (get_spacegroup_symbol sym)) eqn:HC;
    unfold andthen, when;
    try discriminate;
    try (destruct (float_gt _ _); [| destruct (float_lt _ _)]; discriminate).
    intros _. right; right; left. repeat constructor; assumption.
  - discriminate.
  - destruct (ltb _ _); discriminate.
  - destruct (str_in "P" (get_spacegroup_symbol sym)) eqn:HP;
    destruct (str_in "C" (get_spacegroup_symbol sym)) eqn:HC;
    unfold andthen, when.
    4: { intros _. do 3 right; left. repeat constructor; assumption. }
    all: destruct (gtb_spec (thd3 (angles (prim_reciprocal sym))) 90);
      destruct (eqb_spec (thd3 (angles (prim_reciprocal sym))) 90);
      destruct (ltb_spec (thd3 (angles (prim_reciprocal sym))) 90);
      try discriminate; try (exfalso; lra).
    all: match goal with
         | |- context [mclc_ratio ?a ?b ?c ?al] =>
             destruct (gtb_spec (mclc_ratio a b c al) 1);
             destruct (eqb_spec (mclc_ratio a b c al) 1);
             destruct (ltb_spec (mclc_ratio a b c al) 1)
         end; try discriminate; try (exfalso; lra).
  - intros H. do 4 right; left. split; [assumption |].
    destruct (gtb_spec (fst3 (angles (prim_reciprocal sym))) 90);
    destruct (gtb_spec (snd3 (angles (prim_reciprocal sym))) 90);
    destruct (gtb_spec (thd3 (angles (prim_reciprocal sym))) 90);
    destruct (ltb_spec (fst3 (angles (prim_reciprocal sym))) 90);
    destruct (ltb_spec (snd3 (angles (prim_reciprocal sym))) 90);
    destruct (ltb_spec (thd3 (angles (prim_reciprocal sym))) 90);
    destruct (eqb_spec (thd3 (angles (prim_reciprocal sym))) 90);
    try discriminate H; split; intros (? & ? & [? | ?]); lra.
  - intros _. do 5 right. repeat split; assumption.
Qed.

(** C3, as the code has it: for an input that no branch handles the
    constructor raises nothing; it returns an instance whose path is unset,
    and the property [kpath] then returns [None] without raising. *)
Theorem C3_unsupported_returns_None (sym : SymmetryFinder) :
  unsupported sym ->
  exists self, init sym = Ok self /\ kpath self = Ok None.
Proof.
  intros H. exists (fresh sym). unfold init.
  rewrite (unsupported_no_path sym H). split; reflexivity.
Qed.

Lemma orc_A_centred_unsupported : unsupported orc_A_centred.
Proof.
  right; right; left. split; [reflexivity |].
  repeat constructor.
Qed.

Lemma C3_unsupported_returns_None_witness :
  exists self, init orc_A_centred = Ok self /\ kpath self = Ok None.
Proof.
  apply (C3_unsupported_returns_None orc_A_centred).
  right; right; left. split; [reflexivity |].
  repeat constructor.
Defined.

(** The claim as stated asks that construction raise and that [kpath]
    raise afterwards.  For the A-centred orthorhombic input, and for the
    triclinic input with reciprocal angles (90, 100, 100), neither does. *)
Lemma C3_counterexample :
  (unsupported orc_A_centred /\
   (forall e, init orc_A_centred <> Raise e) /\
   exists self, init orc_A_centred = Ok self /\ kpath self = Ok None) /\
  (unsupported tri_kalpha_90 /\
   (forall e, init tri_kalpha_90 <> Raise e) /\
   exists self, init tri_kalpha_90 = Ok self /\ kpath self = Ok None).
Proof.
  assert (Htri : unsupported tri_kalpha_90).
  { do 4 right; left. split; [reflexivity |]. simpl. lra. }
  split.
  - split; [exact orc_A_centred_unsupported |].
    split; [intros e; discriminate |].
    exists (fresh orc_A_centred). unfold init.
    rewrite (unsupported_no_path _ orc_A_centred_unsupported).
    split; reflexivity.
  - split; [exact Htri |].
    split; [intros e; discriminate |].
    exists (fresh tri_kalpha_90). unfold init.
    rewrite (unsupported_no_path _ Htri). split; reflexivity.
Qed.

(** ** Base-centred monoclinic *)

Lemma PI_bounds : 3.14 < PI < 3.15.
Proof.
  pose proof (PI_2_3_7_ineq 1) as [Hlo Hhi].
  unfold sum_f_R0, tg_alt, PI_2_3_7_tg, Ratan_seq in Hlo, Hhi.
  simpl in Hlo, Hhi.
  split; lra.
Qed.

(** The sine of 60 radians: 60 lies just above 19 pi. *)
Lemma sin_60_radians_sqr : sin 60 ^ 2 < 1 / 4.
Proof.
  pose proof PI_bounds as [Hlo Hhi].
  set (x := 60 - 19 * PI).
  assert (Hx : 0 < x < 1 / 2) by (unfold x; lra).
  assert (Hsin : sin 60 = - sin x).
  { replace 60 with (x + PI + 2 * INR 9 * PI) by (unfold x; simpl; lra).
    rewrite sin_period, neg_sin. reflexivity. }
  assert (H0 : 0 < sin x) by (apply sin_gt_0; lra).
  assert (H1 : sin x < x) by (apply sin_lt_x; lra).
  rewrite Hsin. nra.
Qed.

Lemma cos_60_degrees : cos (60 * PI / 180) = 1 / 2.
Proof. replace (60 * PI / 180) with (PI / 3) by lra. apply cos_PI3. Qed.

Lemma sin_60_degrees_sqr : sin (60 * PI / 180) ^ 2 = 3 / 4.
Proof.
  pose proof (sin2_cos2 (60 * PI / 180)) as H.
  rewrite cos_60_degrees in H. unfold Rsqr in H. lra.
Qed.

(** C1 on the code: at [mclc_60] the ratio of the claim is 5/4, above 1,
    which calls for MCLC5; the ratio the constructor computes takes the sine
    of 60 radians, stays below 1, and MCLC3 is selected. *)
Theorem C1_mclc_sine_of_degrees :
  mclc_ratio_as_stated 1 1 1 60 = 5 / 4 /\
  mclc_ratio 1 1 1 60 < 1 /\
  selects mclc_60 "MCLC3" (mclc3 1 1 1 (60 * PI / 180)) /\
  ~ selects mclc_60 "MCLC5" (mclc5 1 1 1 (60 * PI / 180)).
Proof.
  assert (Hcode : mclc_ratio 1 1 1 60 < 1).
  { unfold mclc_ratio. rewrite cos_60_degrees.
    pose proof sin_60_radians_sqr. lra. }
  assert (H3 : selects mclc_60 "MCLC3" (mclc3 1 1 1 (60 * PI / 180))).
  { assert (Hk : thd3 (angles (prim_reciprocal mclc_60)) < 90) by (simpl; lra).
    pose proof (dispatch_mclc_acute mclc_60 eq_refl eq_refl Hk) as (H & _ & _).
    unfold mclc_60 in H. real_lengths_in H. apply H. exact Hcode. }
  split; [| split; [exact Hcode | split; [exact H3 |]]].
  - unfold mclc_ratio_as_stated. cbv zeta.
    rewrite cos_60_degrees, sin_60_degrees_sqr. lra.
  - intros (H5 & _). destruct H3 as (H3 & _).
    rewrite H3 in H5. discriminate.
Qed.

(** ** The sampler *)

(** *** Rounding up *)

Lemma ceil_spec (x : R) : IZR (ceil x) - 1 < x <= IZR (ceil x).
Proof.
  unfold ceil, Int_part.
  destruct (archimed (- x)) as [H1 H2].
  rewrite opp_IZR, minus_IZR. lra.
Qed.

Lemma ceil_0 : ceil 0 = 0%Z.
Proof.
  pose proof (ceil_spec 0) as [H1 H2].
  assert (Hlt : (ceil 0 < 1)%Z) by (apply lt_IZR; lra).
  assert (Hge : (0 <= ceil 0)%Z) by (apply le_IZR; lra).
  lia.
Qed.

Lemma ceil_pos (x : R) : 0 < x -> (1 <= ceil x)%Z.
Proof.
  intros Hx. pose proof (ceil_spec x) as [_ H2].
  assert (Hlt : (0 < ceil x)%Z) by (apply lt_IZR; lra).
  lia.
Qed.

(** *** Vectors *)

Lemma vsub_diag (v : vec3) : norm (vsub v v) = 0.
Proof.
  destruct v as [[x y] z]. unfold vsub, norm.
  replace ((x - x) * (x - x) + (y - y) * (y - y) + (z - z) * (z - z)) with 0 by ring.
  apply sqrt_0.
Qed.

Lemma interpolate_0 (cs ce : vec3) : interpolate cs ce 0 = cs.
Proof.
  destruct cs as [[a b] c], ce as [[x y] z].
  unfold interpolate, vadd, vscale, vsub. f_equal; [f_equal |]; ring.
Qed.

Lemma interpolate_1 (cs ce : vec3) : interpolate cs ce 1 = ce.
Proof.
  destruct cs as [[a b] c], ce as [[x y] z].
  unfold interpolate, vadd, vscale, vsub. f_equal; [f_equal |]; ring.
Qed.

(** *** One leg *)

Lemma comprehension_ok (cs ce : vec3) (nb : Z) (l : list Z) :
  nb <> 0%Z ->
  mapM (fun i => t ← float_div i nb; Ok (interpolate cs ce t)) l =
  Ok ((fun i => interpolate cs ce (IZR i / IZR nb)) <$> l).
Proof.
  intros Hnb. induction l as [| i l IH].
  - reflexivity.
  - cbn [mapM]. rewrite IH. unfold float_div.
    destruct (Z.eqb_spec nb 0); [contradiction |]. reflexivity.
Qed.

(** With [nb = 0] the comprehension runs once, for [i = 0], and divides by
    zero. *)
Lemma comprehension_zero (cs ce : vec3) :
  mapM (fun i => t ← float_div i 0; Ok (interpolate cs ce t)) (range 0 (0 + 1)) =
  Raise ZeroDivisionError.
Proof. reflexivity. Qed.

Section Leg.
Variables (rec : Lattice) (kp : KPath) (d : R).
Variables (l0 l1 : string) (s e : vec3).
Hypothesis Hs : kpoints kp !! l0 = Some s.
Hypothesis He : kpoints kp !! l1 = Some e.

Lemma sample_leg_unfold :
  sample_leg rec kp d (l0, l1) =
  mapM (fun i => t ← float_div i (leg_steps rec d s e);
                 Ok (interpolate (get_cartesian_coords rec s)
                                 (get_cartesian_coords rec e) t))
       (range 0 (leg_steps rec d s e + 1)).
Proof.
  unfold sample_leg, getitem. cbn [fst snd]. rewrite Hs, He. reflexivity.
Qed.

Lemma sample_leg_steps :
  leg_steps rec d s e <> 0%Z ->
  sample_leg rec kp d (l0, l1) =
  Ok (leg_points (get_cartesian_coords rec s) (get_cartesian_coords rec e)
                 (leg_steps rec d s e)).
Proof.
  intros Hnb. rewrite sample_leg_unfold. apply comprehension_ok. exact Hnb.
Qed.

Lemma sample_leg_no_step :
  leg_steps rec d s e = 0%Z ->
  sample_leg rec kp d (l0, l1) = Raise ZeroDivisionError.
Proof.
  intros Hnb. rewrite sample_leg_unfold, Hnb. apply comprehension_zero.
Qed.

(** A leg whose ends have the same Cartesian coordinates raises, whatever
    the density. *)
Lemma sample_leg_zero_length :
  get_cartesian_coords rec s = get_cartesian_coords rec e ->
  sample_leg rec kp d (l0, l1) = Raise ZeroDivisionError.
Proof.
  intros Heq. apply sample_leg_no_step. unfold leg_steps, leg_length.
  rewrite Heq, vsub_diag, Rmult_0_l. apply ceil_0.
Qed.

(** No other exception can leave a leg whose labels are known. *)
Lemma sample_leg_cases :
  sample_leg rec kp d (l0, l1) = Raise ZeroDivisionError \/
  exists pts, sample_leg rec kp d (l0, l1) = Ok pts.
Proof.
  destruct (Z.eq_dec (leg_steps rec d s e) 0%Z) as [H0 | H0].
  - left. apply sample_leg_no_step. exact H0.
  - right. eexists. apply sample_leg_steps. exact H0.
Qed.

End Leg.

(** *** The two loops *)

Lemma for_each_app {A S : Type} (body : S -> A -> result S) (l1 l2 : list A) (s : S) :
  for_each body (l1 ++ l2)%list s = (s' ← for_each body l1 s; for_each body l2 s').
Proof.
  revert s. induction l1 as [| x l1 IH]; intros s.
  - reflexivity.
  - cbn [for_each app]. destruct (body s x) as [s' | err]; cbn.
    + apply IH.
    + reflexivity.
Qed.

(** Two nested loops run as one loop over the concatenation. *)
Lemma for_each_nested {A B S : Type} (body : S -> B -> result S)
  (inner : A -> list B) (l : list A) (s : S) :
  for_each (fun s x => for_each body (inner x) s) l s =
  for_each body (concat (inner <$> l)) s.
Proof.
  revert s. induction l as [| x l IH]; intros s.
  - reflexivity.
  - cbn [for_each fmap list_fmap concat]. rewrite for_each_app.
    destruct (for_each body (inner x) s) as [s' | err]; cbn.
    + apply IH.
    + reflexivity.
Qed.

(** A loop that extends an accumulator collects the results in order. *)
Lemma for_each_extend {A B : Type} (f : A -> result (list B)) (l : list A)
  (acc : list B) :
  for_each (fun acc x => pts ← f x; Ok (acc ++ pts)%list) l acc =
  (ptss ← mapM f l; Ok (acc ++ concat ptss)%list).
Proof.
  revert acc. induction l as [| x l IH]; intros acc.
  - cbn. rewrite app_nil_r. reflexivity.
  - cbn [for_each mapM]. destruct (f x) as [pts | err]; cbn.
    + rewrite IH. destruct (mapM f l) as [ptss | err]; cbn.
      * rewrite <- app_assoc. reflexivity.
      * reflexivity.
    + reflexivity.
Qed.

Lemma get_kpoints_unfold (self : HighSymmKpath) (kp : KPath) (d : R) :
  _kpath self = Some kp ->
  get_kpoints self d =
  (ptss ← mapM (sample_leg (_prim_rec self) kp d) (all_legs kp); Ok (concat ptss)).
Proof.
  intros Hkp. unfold get_kpoints. rewrite Hkp.
  rewrite (for_each_nested
             (fun acc leg => pts ← sample_leg (_prim_rec self) kp d leg;
                             Ok (acc ++ pts)%list) legs).
  rewrite for_each_extend. reflexivity.
Qed.

Lemma mapM_Forall2 {A B : Type} (f : A -> result B) (P : A -> B -> Prop)
  (l : list A) :
  Forall (fun x => exists y, f x = Ok y /\ P x y) l ->
  exists ys, mapM f l = Ok ys /\ Forall2 P l ys.
Proof.
  induction 1 as [| x l (y & Hy & HP) _ (ys & Hys & HF)].
  - exists []. split; [reflexivity | constructor].
  - exists (y :: ys). split.
    + cbn [mapM]. rewrite Hy, Hys. reflexivity.
    + constructor; assumption.
Qed.

(** An exception raised on a leg leaves both loops. *)
Lemma mapM_raise {A B : Type} (f : A -> result B) (l1 l2 : list A) (x : A)
  (err : exn) :
  Forall (fun x => f x = Raise err \/ exists y, f x = Ok y) l1 ->
  f x = Raise err ->
  mapM f (l1 ++ x :: l2)%list = Raise err.
Proof.
  intros Hl1 Hx. induction Hl1 as [| x1 l1 [H1 | (y & H1)] _ IH].
  - cbn [app mapM]. rewrite Hx. reflexivity.
  - cbn [app mapM]. rewrite H1. reflexivity.
  - cbn [app mapM]. rewrite H1, IH. reflexivity.
Qed.

(** *** Points of a leg *)

Lemma leg_points_length (cs ce : vec3) (nb : Z) :
  length (leg_points cs ce nb) = Z.to_nat (nb + 1).
Proof.
  unfold leg_points, range. rewrite length_fmap, length_seqZ.
  f_equal. lia.
Qed.

Lemma leg_points_lookup (cs ce : vec3) (nb i : Z) :
  (0 <= i <= nb)%Z ->
  leg_points cs ce nb !! Z.to_nat i = Some (interpolate cs ce (IZR i / IZR nb)).
Proof.
  intros Hi. unfold leg_points, range.
  rewrite list_lookup_fmap, lookup_seqZ_lt by lia.
  cbn. do 4 f_equal. lia.
Qed.

Lemma leg_points_head (cs ce : vec3) (nb : Z) :
  (1 <= nb)%Z -> head (leg_points cs ce nb) = Some cs.
Proof.
  intros Hnb. rewrite head_lookup.
  change 0%nat with (Z.to_nat 0). rewrite leg_points_lookup by lia.
  unfold Rdiv. rewrite Rmult_0_l, interpolate_0. reflexivity.
Qed.

Lemma leg_points_last (cs ce : vec3) (nb : Z) :
  (1 <= nb)%Z -> last (leg_points cs ce nb) = Some ce.
Proof.
  intros Hnb. rewrite last_lookup, leg_points_length.
  replace (Init.Nat.pred (Z.to_nat (nb + 1))) with (Z.to_nat nb) by lia.
  rewrite leg_points_lookup by lia.
  assert (Hnz : IZR nb <> 0) by (apply not_0_IZR; lia).
  replace (IZR nb / IZR nb) with 1 by (field; exact Hnz).
  rewrite interpolate_1. reflexivity.
Qed.

(** *** Legs of positive length *)

Lemma sample_leg_positive (rec : Lattice) (kp : KPath) (d : R)
  (leg : string * string) (s e : vec3) :
  kpoints kp !! fst leg = Some s ->
  kpoints kp !! snd leg = Some e ->
  0 < d -> 0 < leg_length rec s e ->
  exists pts, sample_leg rec kp d leg = Ok pts /\ leg_sampled rec kp d leg pts.
Proof.
  intros Hs He Hd HL. destruct leg as [l0 l1]. cbn [fst snd] in Hs, He.
  assert (Hn : (1 <= leg_steps rec d s e)%Z) by (apply ceil_pos; nra).
  exists (leg_points (get_cartesian_coords rec s) (get_cartesian_coords rec e)
                     (leg_steps rec d s e)).
  split.
  - apply (sample_leg_steps rec kp d l0 l1 s e Hs He). lia.
  - exists s, e. cbn [fst snd]. split; [exact Hs |]. split; [exact He |].
    cbv zeta. split; [| split; [| split]].
    + rewrite leg_points_length. lia.
    + apply leg_points_head. exact Hn.
    + apply leg_points_last. exact Hn.
    + intros i Hi. apply leg_points_lookup. exact Hi.
Qed.

(** *** A leg of length zero *)

(** C2 on the code: for [bct_tie] the constructor selects BCT2, whose
    points Y and Sigma coincide when [c = a]; the leg from Y to Sigma of the
    first segment has length zero, its sampling raises [ZeroDivisionError],
    and so does [get_kpoints], at every density and for every reciprocal
    lattice. *)
Theorem C2_zero_length_leg_raises (prim rec : Lattice) (d : R) :
  exists self kp v,
    init (bct_tie prim rec) = Ok self /\
    name self = Ok "BCT2" /\
    kpath self = Ok (Some kp) /\
    ("Y", "\Sigma") ∈ all_legs kp /\
    kpoints kp !! "Y" = Some v /\
    kpoints kp !! "\Sigma" = Some v /\
    leg_length rec v v = 0 /\
    leg_steps rec d v v = 0%Z /\
    sample_leg rec kp d ("Y", "\Sigma") = Raise ZeroDivisionError /\
    get_kpoints self d = Raise ZeroDivisionError.
Proof.
  set (sym := bct_tie prim rec).
  set (self := assign (bctet2 3 3) (fresh sym)).
  set (kp := snd (bctet2 3 3 (fresh sym))).
  set (v := (- (1 / 2), 1 / 2, 1 / 2) : vec3).
  assert (Hinit : init sym = Ok self).
  { unfold init. rewrite dispatch_tetragonal_I by reflexivity.
    unfold sym, bct_tie. real_lengths.
    compare_reals. reflexivity. }
  assert (HY : kpoints kp !! "Y" = Some v).
  { transitivity (Some (- (3 ^ 2 / (2 * 3 ^ 2)), 3 ^ 2 / (2 * 3 ^ 2), 0.5)).
    - vm_compute. reflexivity.
    - unfold v. do 2 f_equal; [f_equal |]; lra. }
  assert (HS : kpoints kp !! "\Sigma" = Some v).
  { transitivity (Some (- ((1 + 3 ^ 2 / 3 ^ 2) / 4.0), (1 + 3 ^ 2 / 3 ^ 2) / 4.0,
                        (1 + 3 ^ 2 / 3 ^ 2) / 4.0)).
    - vm_compute. reflexivity.
    - unfold v. do 2 f_equal; [f_equal |]; lra. }
  assert (Hleg : sample_leg rec kp d ("Y", "\Sigma") = Raise ZeroDivisionError).
  { apply (sample_leg_zero_length rec kp d "Y" "\Sigma" v v HY HS). reflexivity. }
  assert (HL : leg_length rec v v = 0) by apply vsub_diag.
  exists self, kp, v.
  split; [exact Hinit |]. split; [reflexivity |]. split; [reflexivity |].
  split; [| split; [exact HY | split; [exact HS | split; [exact HL |]]]].
  { unfold all_legs, kp. cbn. set_solver. }
  split; [unfold leg_steps; rewrite HL, Rmult_0_l; apply ceil_0 |].
  split; [exact Hleg |].
  rewrite (get_kpoints_unfold self kp d) by reflexivity.
  change (_prim_rec self) with rec.
  replace (all_legs kp) with
    ([("\Gamma", "X"); ("X", "Y")] ++ ("Y", "\Sigma") ::
     [("\Sigma", "\Gamma"); ("\Gamma", "Z"); ("Z", "\Sigma_1");
      ("\Sigma_1", "N"); ("N", "P"); ("P", "Y_1"); ("Y_1", "Z"); ("X", "P")])%list
    by reflexivity.
  rewrite (mapM_raise _ _ _ _ ZeroDivisionError); [reflexivity | | exact Hleg].
  repeat (apply Forall_cons; split;
          [eapply sample_leg_cases; vm_compute; reflexivity |]).
  apply Forall_nil. exact I.
Qed.

(** The path of BCT2 at [c = a] cannot be sampled: Y and Sigma coincide. *)
Lemma bctet2_tie_raises (self0 : HighSymmKpath) (a d : R) :
  a <> 0 ->
  get_kpoints (assign (bctet2 a a) self0) d = Raise ZeroDivisionError.
Proof.
  intros Ha.
  set (self := assign (bctet2 a a) self0).
  set (kp := snd (bctet2 a a self0)).
  set (v := (- (1 / 2), 1 / 2, 1 / 2) : vec3).
  assert (HY : kpoints kp !! "Y" = Some v).
  { transitivity (Some (- (a ^ 2 / (2 * a ^ 2)), a ^ 2 / (2 * a ^ 2), 0.5)).
    - vm_compute. reflexivity.
    - unfold v. do 2 f_equal; [f_equal |];
        first [lra | field; exact Ha]. }
  assert (HS : kpoints kp !! "\Sigma" = Some v).
  { transitivity (Some (- ((1 + a ^ 2 / a ^ 2) / 4.0), (1 + a ^ 2 / a ^ 2) / 4.0,
                        (1 + a ^ 2 / a ^ 2) / 4.0)).
    - vm_compute. reflexivity.
    - assert (Hr : a ^ 2 / a ^ 2 = 1) by (field; exact Ha).
      rewrite Hr. unfold v. do 2 f_equal; [f_equal |]; lra. }
  assert (Hleg : sample_leg (_prim_rec self0) kp d ("Y", "\Sigma")
                 = Raise ZeroDivisionError).
  { apply (sample_leg_zero_length _ kp d "Y" "\Sigma" v v HY HS). reflexivity. }
  rewrite (get_kpoints_unfold self kp d) by reflexivity.
  change (_prim_rec self) with (_prim_rec self0).
  replace (all_legs kp) with
    ([("\Gamma", "X"); ("X", "Y")] ++ ("Y", "\Sigma") ::
     [("\Sigma", "\Gamma"); ("\Gamma", "Z"); ("Z", "\Sigma_1");
      ("\Sigma_1", "N"); ("N", "P"); ("P", "Y_1"); ("Y_1", "Z"); ("X", "P")])%list
    by reflexivity.
  rewrite (mapM_raise _ _ _ _ ZeroDivisionError); [reflexivity | | exact Hleg].
  repeat (apply Forall_cons; split;
          [eapply sample_leg_cases; vm_compute; reflexivity |]).
  apply Forall_nil. exact I.
Qed.

Lemma ceil_IZR (z : Z) : ceil (IZR z) = z.
Proof.
  pose proof (ceil_spec (IZR z)) as [H1 H2].
  assert (Hlo : (ceil (IZR z) - 1 < z)%Z) by (apply lt_IZR; rewrite minus_IZR; lra).
  assert (Hhi : (z <= ceil (IZR z))%Z) by (apply le_IZR; lra).
  lia.
Qed.

(** C4 on the code: for [bct_tie] (body-centred tetragonal, [c = a = 3])
    seen through the reciprocal lattice with unit orthogonal axes, at the
    default density 20, the first segment of the path starts with the leg
    from Gamma to X, of positive length 1/2; the lines that sample one leg
    give [ceil (1/2 * 20) + 1 = 11] points on it, as the claim says.  But
    the third leg of the same segment has length zero, [get_kpoints] raises
    [ZeroDivisionError] there, and the caller receives no point of the
    first leg.  Every number involved (0, 1/2, 10, 20) is an exact double,
    and so is each intermediate value; the rounding changes nothing. *)
Theorem C4_positive_leg_lost (prim : Lattice) :
  let rec := orthogonal_cell 1 1 1 in
  exists self kp s e pts,
    init (bct_tie prim rec) = Ok self /\
    kpath self = Ok (Some kp) /\
    (exists seg rest, path kp = ("\Gamma" :: "X" :: seg) :: rest) /\
    kpoints kp !! "\Gamma" = Some s /\
    kpoints kp !! "X" = Some e /\
    leg_length rec s e = 1 / 2 /\
    sample_leg rec kp 20 ("\Gamma", "X") = Ok pts /\
    length pts = 11%nat /\
    get_kpoints self 20 = Raise ZeroDivisionError.
Proof.
  intros rec.
  set (self := assign (bctet2 3 3) (fresh (bct_tie prim rec))).
  set (kp := snd (bctet2 3 3 (fresh (bct_tie prim rec)))).
  assert (Hinit : init (bct_tie prim rec) = Ok self).
  { unfold init. rewrite dispatch_tetragonal_I by reflexivity.
    unfold bct_tie. real_lengths. compare_reals. reflexivity. }
  assert (Hget : get_kpoints self 20 = Raise ZeroDivisionError)
    by (apply bctet2_tie_raises; lra).
  set (s := (0.0, 0.0, 0.0) : vec3). set (e := (0.0, 0.0, 0.5) : vec3).
  assert (Hs : kpoints kp !! "\Gamma" = Some s) by (vm_compute; reflexivity).
  assert (He : kpoints kp !! "X" = Some e) by (vm_compute; reflexivity).
  assert (HL : leg_length rec s e = 1 / 2).
  { unfold leg_length, rec, s, e, norm. real_lengths. cbn [vsub].
    replace ((0.0 * 1 - 0.0 * 1) * (0.0 * 1 - 0.0 * 1) +
             (0.0 * 1 - 0.0 * 1) * (0.0 * 1 - 0.0 * 1) +
             (0.0 * 1 - 0.5 * 1) * (0.0 * 1 - 0.5 * 1))
      with ((1 / 2) * (1 / 2)) by lra.
    apply sqrt_square. lra. }
  assert (Hn : leg_steps rec 20 s e = 10%Z).
  { unfold leg_steps. rewrite HL. replace (1 / 2 * 20) with (IZR 10) by lra.
    apply ceil_IZR. }
  exists self, kp, s, e,
    (leg_points (get_cartesian_coords rec s) (get_cartesian_coords rec e) 10).
  split; [exact Hinit |]. split; [reflexivity |].
  split; [eexists _, _; reflexivity |].
  split; [exact Hs |]. split; [exact He |]. split; [exact HL |].
  split; [| split; [| exact Hget]].
  - rewrite <- Hn. apply (sample_leg_steps rec kp 20 "\Gamma" "X" s e Hs He).
    rewrite Hn. discriminate.
  - rewrite leg_points_length. reflexivity.
Qed.

(** * Further properties of the constructor *)

(** Runs the cascade once the lattice type is known: rewrites with the given
    facts on the symbol, settles the comparisons and tries the letters left
    undetermined. *)
Ltac run_cascade Hty :=
  apply selects_intro; unfold dispatch; rewrite Hty;
  cbn [String.eqb Ascii.eqb Bool.eqb];
  repeat match goal with
         | H : str_in _ _ = _ |- _ => rewrite H; clear H
         end;
  compare_reals; unfold andthen, when;
  repeat match goal with
         | |- context [str_in ?l ?s] => destruct (str_in l s)
         end;
  reflexivity.

(** X1: in the cubic branch the three letters are tested in the order P, F,
    I and a later hit overwrites an earlier one: a symbol with I gives BCC
    whatever else it holds, a symbol with F and no I gives FCC. *)
Theorem X1_cubic_F_I (sym : SymmetryFinder) :
  get_lattice_type sym = "cubic" ->
  (str_in "I" (get_spacegroup_symbol sym) = true -> selects sym "BCC" bcc) /\
  (str_in "F" (get_spacegroup_symbol sym) = true ->
   str_in "I" (get_spacegroup_symbol sym) = false -> selects sym "FCC" fcc).
Proof.
  intros Hty. split.
  - intros HI. run_cascade Hty.
  - intros HF HI. run_cascade Hty.
Qed.

Lemma X1_cubic_F_I_witness :
  selects cubic_I "BCC" bcc /\ selects cubic_F "FCC" fcc.
Proof.
  split.
  - apply (X1_cubic_F_I cubic_I); reflexivity.
  - apply (X1_cubic_F_I cubic_F); reflexivity.
Defined.

(** X2: a tetragonal structure whose symbol has P and no I gets TET. *)
Theorem X2_tetragonal_P (sym : SymmetryFinder) :
  get_lattice_type sym = "tetragonal" ->
  str_in "P" (get_spacegroup_symbol sym) = true ->
  str_in "I" (get_spacegroup_symbol sym) = false ->
  selects sym "TET" tet.
Proof.
  intros Hty HP HI. run_cascade Hty.
Qed.

Lemma X2_tetragonal_P_witness : selects tet_P "TET" tet.
Proof.
  apply (X2_tetragonal_P tet_P); reflexivity.
Defined.

(** X3: in the orthorhombic branch the letters are tested in the order P,
    F, I, C: a symbol with C gives ORCC whatever else it holds, a symbol
    with I and no C gives ORCI, and a symbol with P and none of F, I, C
    gives ORC. *)
Theorem X3_orthorhombic_P_I_C (sym : SymmetryFinder) :
  get_lattice_type sym = "orthorhombic" ->
  let a := fst3 (abc (conv_lattice sym)) in
  let b := snd3 (abc (conv_lattice sym)) in
  let c := thd3 (abc (conv_lattice sym)) in
  (str_in "C" (get_spacegroup_symbol sym) = true ->
   selects sym "ORCC" (orcc a b c)) /\
  (str_in "I" (get_spacegroup_symbol sym) = true ->
   str_in "C" (get_spacegroup_symbol sym) = false ->
   selects sym "ORCI" (orci a b c)) /\
  (str_in "P" (get_spacegroup_symbol sym) = true ->
   str_in "F" (get_spacegroup_symbol sym) = false ->
   str_in "I" (get_spacegroup_symbol sym) = false ->
   str_in "C" (get_spacegroup_symbol sym) = false ->
   selects sym "ORC" orc).
Proof.
  intros Hty a b c. split; [| split].
  - intros HC. apply selects_intro; unfold dispatch; rewrite Hty, HC.
    cbn [String.eqb Ascii.eqb Bool.eqb]. fold a b c. unfold andthen, when.
    destruct (str_in "P" _); destruct (str_in "F" _); destruct (str_in "I" _);
      try reflexivity;
      destruct (float_gt _ _); try reflexivity;
      destruct (float_lt _ _); reflexivity.
  - intros HI HC. apply selects_intro; unfold dispatch; rewrite Hty, HI, HC.
    cbn [String.eqb Ascii.eqb Bool.eqb]. fold a b c. unfold andthen, when.
    destruct (str_in "P" _); destruct (str_in "F" _);
      try reflexivity;
      destruct (float_gt _ _); try reflexivity;
      destruct (float_lt _ _); reflexivity.
  - intros HP HF HI HC. run_cascade Hty.
Qed.

Lemma X3_orthorhombic_P_I_C_witness :
  selects orc_C "ORCC" (orcc 3 4 5) /\
  selects orc_I "ORCI" (orci 3 4 5) /\
  selects orc_P "ORC" orc.
Proof.
  pose proof (X3_orthorhombic_P_I_C orc_C eq_refl) as (HC & _ & _).
  pose proof (X3_orthorhombic_P_I_C orc_I eq_refl) as (_ & HI & _).
  pose proof (X3_orthorhombic_P_I_C orc_P eq_refl) as (_ & _ & HP).
  unfold orc_C in HC. real_lengths_in HC.
  unfold orc_I in HI. real_lengths_in HI.
  split; [| split].
  - apply HC. reflexivity.
  - apply HI; reflexivity.
  - apply HP; reflexivity.
Defined.

(** X4: a hexagonal structure gets HEX, whatever its symbol. *)
Theorem X4_hexagonal (sym : SymmetryFinder) :
  get_lattice_type sym = "hexagonal" -> selects sym "HEX" hex.
Proof.
  intros Hty. run_cascade Hty.
Qed.

Lemma X4_hexagonal_witness : selects hex_P "HEX" hex.
Proof.
  apply (X4_hexagonal hex_P); reflexivity.
Defined.

(** X5: a rhombohedral structure gets RHL1 when the first angle of its
    primitive cell is below 90 degrees and RHL2 otherwise, 90 included; the
    variant receives that angle in radians; the symbol is not looked at. *)
Theorem X5_rhombohedral (sym : SymmetryFinder) :
  get_lattice_type sym = "rhombohedral" ->
  let alpha := fst3 (angles (prim_lattice sym)) in
  (alpha < 90 -> selects sym "RHL1" (rhl1 (alpha * PI / 180))) /\
  (alpha >= 90 -> selects sym "RHL2" (rhl2 (alpha * PI / 180))).
Proof.
  intros Hty alpha. split; intros Ha.
  - apply selects_intro; unfold dispatch; rewrite Hty.
    cbn [String.eqb Ascii.eqb Bool.eqb]. fold alpha. compare_reals. reflexivity.
  - apply selects_intro; unfold dispatch; rewrite Hty.
    cbn [String.eqb Ascii.eqb Bool.eqb]. fold alpha. compare_reals. reflexivity.
Qed.

Lemma X5_rhombohedral_witness :
  selects rhl_60 "RHL1" (rhl1 (60 * PI / 180)) /\
  selects rhl_90 "RHL2" (rhl2 (90 * PI / 180)).
Proof.
  split.
  - apply (X5_rhombohedral rhl_60); [reflexivity | simpl; lra].
  - apply (X5_rhombohedral rhl_90); [reflexivity | simpl; lra].
Defined.

(** X6: a monoclinic structure whose symbol has P and no C gets MCL,
    computed from the conventional [b], [c] and the conventional angle
    [alpha] converted to radians. *)
Theorem X6_monoclinic_P (sym : SymmetryFinder) :
  get_lattice_type sym = "monoclinic" ->
  str_in "P" (get_spacegroup_symbol sym) = true ->
  str_in "C" (get_spacegroup_symbol sym) = false ->
  let b := snd3 (abc (conv_lattice sym)) in
  let c := thd3 (abc (conv_lattice sym)) in
  let alpha := fst3 (angles (conv_lattice sym)) in
  selects sym "MCL" (mcl b c (alpha * PI / 180)).
Proof.
  intros Hty HP HC b c alpha. run_cascade Hty.
Qed.

Lemma X6_monoclinic_P_witness : selects mcl_P "MCL" (mcl 1 1 (80 * PI / 180)).
Proof.
  pose proof (X6_monoclinic_P mcl_P eq_refl eq_refl eq_refl) as H.
  unfold mcl_P in H. real_lengths_in H.
  exact H.
Defined.

(** X7: a monoclinic structure whose symbol has C gets MCLC1 when the
    reciprocal angle [kgamma] is above 90 and MCLC2 when it equals 90,
    whether or not the symbol also has P. *)
Theorem X7_monoclinic_C_kgamma (sym : SymmetryFinder) :
  get_lattice_type sym = "monoclinic" ->
  str_in "C" (get_spacegroup_symbol sym) = true ->
  let a := fst3 (abc (conv_lattice sym)) in
  let b := snd3 (abc (conv_lattice sym)) in
  let c := thd3 (abc (conv_lattice sym)) in
  let alpha := fst3 (angles (conv_lattice sym)) in
  let kgamma := thd3 (angles (prim_reciprocal sym)) in
  (kgamma > 90 -> selects sym "MCLC1" (mclc1 a b c (alpha * PI / 180))) /\
  (kgamma = 90 -> selects sym "MCLC2" (mclc2 a b c (alpha * PI / 180))).
Proof.
  intros Hty HC a b c alpha kgamma. split; intros Hk.
  - apply selects_intro; unfold dispatch; rewrite Hty, HC.
    cbn [String.eqb Ascii.eqb Bool.eqb]. fold a b c alpha kgamma.
    compare_reals. unfold andthen, when. destruct (str_in "P" _); reflexivity.
  - apply selects_intro; unfold dispatch; rewrite Hty, HC.
    cbn [String.eqb Ascii.eqb Bool.eqb]. fold a b c alpha kgamma.
    compare_reals. unfold andthen, when. destruct (str_in "P" _); reflexivity.
Qed.

Lemma X7_monoclinic_C_kgamma_witness :
  selects mclc_obtuse "MCLC1" (mclc1 1 1 1 (80 * PI / 180)) /\
  selects mclc_right "MCLC2" (mclc2 1 1 1 (80 * PI / 180)).
Proof.
  pose proof (X7_monoclinic_C_kgamma mclc_obtuse eq_refl eq_refl) as (H1 & _).
  pose proof (X7_monoclinic_C_kgamma mclc_right eq_refl eq_refl) as (_ & H2).
  unfold mclc_obtuse in H1. real_lengths_in H1.
  unfold mclc_right in H2. real_lengths_in H2.
  split; [apply H1 | apply H2]; lra.
Defined.

(** ** Name and path go together *)

(** Tries the variant [m] as the one whose call produced the state of the
    goal. *)
Ltac by_variant alpha m :=
  right; exists alpha, m; split; [unfold variant_methods; repeat constructor | reflexivity].

(** Whatever the input, the cascade either leaves the fresh instance
    untouched or leaves it as one call of one variant method left it. *)
Lemma dispatch_cases (sym : SymmetryFinder) :
  let a := fst3 (abc (conv_lattice sym)) in
  let b := snd3 (abc (conv_lattice sym)) in
  let c := thd3 (abc (conv_lattice sym)) in
  dispatch sym (fresh sym) = fresh sym \/
  exists alpha m,
    m ∈ variant_methods a b c alpha /\
    dispatch sym (fresh sym) = assign m (fresh sym).
Proof.
  intros a b c.
  set (alphaC := fst3 (angles (conv_lattice sym)) * PI / 180).
  set (alphaP := fst3 (angles (prim_lattice sym)) * PI / 180).
  unfold dispatch. fold a b c.
  repeat match goal with
         | |- context [String.eqb ?x ?y] => destruct (String.eqb x y)
         end.
  - destruct (str_in "P" _), (str_in "F" _), (str_in "I" _);
      unfold andthen, when;
      first [left; reflexivity | by_variant 0 bcc | by_variant 0 fcc
            | by_variant 0 cubic].
  - destruct (str_in "P" _), (str_in "I" _), (ltb c a);
      unfold andthen, when;
      first [left; reflexivity | by_variant 0 (bctet1 c a)
            | by_variant 0 (bctet2 c a) | by_variant 0 tet].
  - destruct (str_in "P" _), (str_in "F" _), (str_in "I" _), (str_in "C" _),
      (float_gt (orcf_lhs (len_a (conv_lattice sym)))
                (orcf_rhs (len_b (conv_lattice sym)) (len_c (conv_lattice sym)))),
      (float_lt (orcf_lhs (len_a (conv_lattice sym)))
                (orcf_rhs (len_b (conv_lattice sym)) (len_c (conv_lattice sym))));
      unfold andthen, when;
      first [left; reflexivity | by_variant 0 (orcc a b c)
            | by_variant 0 (orci a b c) | by_variant 0 (orcf1 a b c)
            | by_variant 0 (orcf2 a b c) | by_variant 0 (orcf3 a b c)
            | by_variant 0 orc].
  - by_variant 0 hex.
  - destruct (ltb _ _); [by_variant alphaP (rhl1 alphaP) | by_variant alphaP (rhl2 alphaP)].
  - fold alphaC.
    destruct (str_in "P" _), (str_in "C" _),
      (gtb (thd3 (angles (prim_reciprocal sym))) 90),
      (eqb (thd3 (angles (prim_reciprocal sym))) 90),
      (ltb (thd3 (angles (prim_reciprocal sym))) 90),
      (ltb (mclc_ratio a b c (fst3 (angles (conv_lattice sym)))) 1),
      (eqb (mclc_ratio a b c (fst3 (angles (conv_lattice sym)))) 1),
      (gtb (mclc_ratio a b c (fst3 (angles (conv_lattice sym)))) 1);
      unfold andthen, when;
      first [left; reflexivity
            | by_variant alphaC (mclc5 a b c alphaC)
            | by_variant alphaC (mclc4 a b c alphaC)
            | by_variant alphaC (mclc3 a b c alphaC)
            | by_variant alphaC (mclc2 a b c alphaC)
            | by_variant alphaC (mclc1 a b c alphaC)
            | by_variant alphaC (mcl b c alphaC)].
  - destruct (gtb (fst3 _) 90), (gtb (snd3 _) 90), (gtb (thd3 _) 90),
      (ltb (fst3 _) 90), (ltb (snd3 _) 90), (ltb (thd3 _) 90), (eqb (thd3 _) 90);
      unfold andthen, when; cbn [andb];
      first [left; reflexivity | by_variant 0 trib | by_variant 0 tria].
  - left. reflexivity.
Qed.

(** X8: the constructor never raises, and the instance it returns is in
    one of two states.  Either no variant ran: [name] raises
    [AttributeError] and [kpath] returns [None]; this happens exactly for the
    unsupported inputs.  Or it is the fresh instance on which one variant
    method, computed from the conventional lengths, was called once: name
    and path come from the same variant. *)
Theorem X8_name_and_path_together (sym : SymmetryFinder) :
  let a := fst3 (abc (conv_lattice sym)) in
  let b := snd3 (abc (conv_lattice sym)) in
  let c := thd3 (abc (conv_lattice sym)) in
  exists self,
    init sym = Ok self /\
    ((unsupported sym /\
      name self = Raise AttributeError /\ kpath self = Ok None) \/
     (~ unsupported sym /\
      exists alpha m n k,
        m ∈ variant_methods a b c alpha /\
        m (fresh sym) = (set_name n (fresh sym), k) /\
        name self = Ok n /\ kpath self = Ok (Some k))).
Proof.
  intros a b c. exists (dispatch sym (fresh sym)). split; [reflexivity |].
  destruct (dispatch_cases sym) as [Hnone | (alpha & m & Hin & Hm)].
  - left. split.
    + apply no_path_unsupported. rewrite Hnone. reflexivity.
    + rewrite Hnone. split; reflexivity.
  - right. split.
    + intros Hun. rewrite (unsupported_no_path sym Hun) in Hm.
      unfold assign in Hm. destruct (m (fresh sym)) as [s k]. discriminate.
    + fold a b c in Hin. rewrite Hm.
      unfold variant_methods in Hin.
      repeat (apply elem_of_cons in Hin as [-> | Hin];
              [eexists alpha, _, _, _; split;
               [unfold variant_methods; repeat constructor
               | split; [reflexivity | split; reflexivity]] |]).
      apply elem_of_nil in Hin. contradiction.
Qed.

(** * Further properties of the sampler *)

Lemma legs_known_sound (kp : KPath) :
  legs_known kp = true ->
  Forall (fun leg => exists s e,
            kpoints kp !! fst leg = Some s /\ kpoints kp !! snd leg = Some e)
         (all_legs kp).
Proof.
  unfold legs_known. rewrite forallb_forall, Forall_forall.
  intros H leg Hin. apply list_elem_of_In in Hin.
  specialize (H leg Hin). apply andb_true_iff in H as [H1 H2].
  unfold has_key in H1, H2.
  destruct (kpoints kp !! fst leg) as [s |]; [| discriminate].
  destruct (kpoints kp !! snd leg) as [e |]; [| discriminate].
  exists s, e. split; reflexivity.
Qed.

Lemma variant_legs_known (a b c alpha : R) (m : method KPath) (self : HighSymmKpath) :
  m ∈ variant_methods a b c alpha -> legs_known (snd (m self)) = true.
Proof.
  intros Hin. unfold variant_methods in Hin.
  repeat (apply elem_of_cons in Hin as [-> | Hin]; [vm_compute; reflexivity |]).
  apply elem_of_nil in Hin. contradiction.
Qed.

Lemma mapM_ok_or_raise {A B : Type} (f : A -> result B) (err : exn) (l : list A) :
  Forall (fun x => f x = Raise err \/ exists y, f x = Ok y) l ->
  mapM f l = Raise err \/ exists ys, mapM f l = Ok ys.
Proof.
  induction 1 as [| x l [Hx | (y & Hx)] _ [IH | (ys & IH)]].
  - right. exists []. reflexivity.
  - left. cbn [mapM]. rewrite Hx. reflexivity.
  - left. cbn [mapM]. rewrite Hx. reflexivity.
  - left. cbn [mapM]. rewrite Hx, IH. reflexivity.
  - right. exists (y :: ys). cbn [mapM]. rewrite Hx, IH. reflexivity.
Qed.

(** On a path whose leg labels are all known, nothing but
    [ZeroDivisionError] can leave the sampler. *)
Lemma get_kpoints_known_labels (self : HighSymmKpath) (kp : KPath) (d : R) :
  _kpath self = Some kp ->
  legs_known kp = true ->
  get_kpoints self d = Raise ZeroDivisionError \/
  exists pts, get_kpoints self d = Ok pts.
Proof.
  intros Hkp Hknown. rewrite (get_kpoints_unfold self kp d Hkp).
  destruct (mapM_ok_or_raise (sample_leg (_prim_rec self) kp d) ZeroDivisionError
                             (all_legs kp)) as [Hr | (ptss & Hok)].
  - eapply Forall_impl; [exact (legs_known_sound kp Hknown) |].
    intros [l0 l1] (s & e & Hs & He). cbn [fst snd] in Hs, He.
    apply (sample_leg_cases (_prim_rec self) kp d l0 l1 s e Hs He).
  - left. rewrite Hr. reflexivity.
  - right. exists (concat ptss). rewrite Hok. reflexivity.
Qed.

(** X9: what [get_kpoints] can do on an instance built by the constructor,
    at any density: for an unsupported input it raises [TypeError] (the path
    is [None]); for every other input it returns a list of points or raises
    [ZeroDivisionError].  It never raises [KeyError]. *)
Theorem X9_get_kpoints_outcomes (sym : SymmetryFinder) (d : R) :
  exists self,
    init sym = Ok self /\
    ((unsupported sym /\ get_kpoints self d = Raise TypeError) \/
     (~ unsupported sym /\
      (get_kpoints self d = Raise ZeroDivisionError \/
       exists pts, get_kpoints self d = Ok pts))).
Proof.
  exists (dispatch sym (fresh sym)). split; [reflexivity |].
  destruct (dispatch_cases sym) as [Hnone | (alpha & m & Hin & Hm)].
  - left. split.
    + apply no_path_unsupported. rewrite Hnone. reflexivity.
    + rewrite Hnone. reflexivity.
  - right. split.
    + intros Hun. rewrite (unsupported_no_path sym Hun) in Hm.
      unfold assign in Hm. destruct (m (fresh sym)) as [s k]. discriminate.
    + rewrite Hm.
      apply (get_kpoints_known_labels _ (snd (m (fresh sym)))).
      * unfold assign. destruct (m (fresh sym)) as [s k]. reflexivity.
      * apply (variant_legs_known _ _ _ _ m (fresh sym) Hin).
Qed.

(** ** Legs with distinct ends *)

Lemma norm_nonneg (v : vec3) : 0 <= norm v.
Proof. destruct v as [[x y] z]. apply sqrt_pos. Qed.

(** Two explicit triples of reals differ. *)
Ltac distinct_triples :=
  let H := fresh in
  intros H; injection H; intros; lra.

(** Two labels that follow each other in a segment make a leg of it. *)
Lemma legs_consecutive (b : list string) (i : nat) (l0 l1 : string) :
  b !! i = Some l0 -> b !! S i = Some l1 -> (l0, l1) ∈ legs b.
Proof.
  revert i. induction b as [| x t IH]; intros i H0 H1; [discriminate |].
  destruct t as [| y t']; [destruct i; discriminate |].
  destruct i as [| i].
  - injection H0 as ->. injection H1 as ->. simpl. left.
  - change (legs (x :: y :: t')) with ((x, y) :: legs (y :: t')).
    right. apply (IH i); assumption.
Qed.

Lemma elem_of_concat {A : Type} (x : A) (l : list A) (ls : list (list A)) :
  x ∈ l -> l ∈ ls -> x ∈ concat ls.
Proof.
  intros Hx Hl. induction Hl as [l ls | l l' ls _ IH]; cbn [concat];
    apply elem_of_app; [left; exact Hx | right; exact (IH Hx)].
Qed.

Lemma all_legs_consecutive (kp : KPath) (b : list string) (i : nat)
  (l0 l1 : string) :
  b ∈ path kp -> b !! i = Some l0 -> b !! S i = Some l1 ->
  (l0, l1) ∈ all_legs kp.
Proof.
  intros Hb H0 H1. unfold all_legs.
  apply (elem_of_concat _ (legs b)).
  - apply (legs_consecutive b i); assumption.
  - apply list_elem_of_fmap. exists b. split; [reflexivity | exact Hb].
Qed.

(** X10: in the eight variants without parameters (CUB, FCC, BCC, TET,
    ORC, HEX, TRI1a, TRI1b), any two labels that follow each other in a
    segment of the path are keys of the dictionary and have different
    fractional coordinates: no leg of these paths has equal ends. *)
Theorem X10_parameter_free_distinct_legs (self : HighSymmKpath) :
  Forall (fun m : method KPath => distinct_legs (snd (m self))) parameter_free.
Proof.
  assert (Hlegs : Forall (fun m : method KPath =>
            Forall (fun leg => exists s e,
                      kpoints (snd (m self)) !! fst leg = Some s /\
                      kpoints (snd (m self)) !! snd leg = Some e /\
                      s <> e)
                   (all_legs (snd (m self)))) parameter_free).
  { unfold parameter_free.
    repeat (apply Forall_cons; split;
            [unfold all_legs;
             cbn [snd path fmap list_fmap concat legs app];
             repeat (apply Forall_cons; split;
                     [eexists _, _; split; [reflexivity |]; split; [reflexivity |];
                      distinct_triples |]);
             apply Forall_nil; exact I |]).
    apply Forall_nil. exact I. }
  eapply Forall_impl; [exact Hlegs |].
  intros m Hm b i l0 l1 Hb H0 H1. cbv beta in Hm.
  pose proof (proj1 (Forall_forall _ _) Hm (l0, l1)
                (all_legs_consecutive _ b i l0 l1 Hb H0 H1)) as H.
  exact H.
Qed.

(** ** Density *)

Lemma ceil_mono (x y : R) : x <= y -> (ceil x <= ceil y)%Z.
Proof.
  intros Hxy. pose proof (ceil_spec x) as [Hx _]. pose proof (ceil_spec y) as [_ Hy].
  assert (H : (ceil x - 1 < ceil y)%Z) by (apply lt_IZR; rewrite minus_IZR; lra).
  lia.
Qed.

Lemma ceil_le_neg (x : R) : x <= -1 -> (ceil x <= -1)%Z.
Proof.
  intros Hx. pose proof (ceil_spec x) as [H _].
  assert (H0 : (ceil x < 0)%Z) by (apply lt_IZR; lra).
  lia.
Qed.

Lemma concat_length_le {A B : Type} (P Q : A -> list B -> Prop)
  (l : list A) (xs ys : list (list B)) :
  (forall x a b, P x a -> Q x b -> (length a <= length b)%nat) ->
  Forall2 P l xs -> Forall2 Q l ys ->
  (length (concat xs) <= length (concat ys))%nat.
Proof.
  intros Hle HP. revert ys.
  induction HP as [| x a l xs Hxa _ IH]; intros ys HQ.
  - inversion HQ; subst. cbn. lia.
  - inversion HQ as [| ? b ? ys' Hxb HQ']; subst. cbn [concat].
    rewrite !length_app. specialize (IH ys' HQ'). specialize (Hle x a b Hxa Hxb).
    lia.
Qed.

(** X12: on a path whose legs all have a positive length, a larger
    density never gives fewer points: for [0 < d1 <= d2] both samplings
    succeed and the second list is at least as long as the first. *)
Theorem X12_density_monotone (self : HighSymmKpath) (kp : KPath) (d1 d2 : R) :
  _kpath self = Some kp ->
  0 < d1 -> d1 <= d2 ->
  Forall (fun leg => exists s e,
            kpoints kp !! fst leg = Some s /\
            kpoints kp !! snd leg = Some e /\
            0 < leg_length (_prim_rec self) s e)
         (all_legs kp) ->
  exists pts1 pts2,
    get_kpoints self d1 = Ok pts1 /\
    get_kpoints self d2 = Ok pts2 /\
    (length pts1 <= length pts2)%nat.
Proof.
  intros Hkp Hd1 Hd12 Hlegs.
  assert (Hd2 : 0 < d2) by lra.
  assert (Hrun : forall d, 0 < d ->
    exists per_leg, mapM (sample_leg (_prim_rec self) kp d) (all_legs kp) = Ok per_leg /\
                    Forall2 (leg_sampled (_prim_rec self) kp d) (all_legs kp) per_leg).
  { intros d Hd. apply mapM_Forall2.
    eapply Forall_impl; [exact Hlegs |].
    intros leg (s & e & Hs & He & HL).
    apply (sample_leg_positive _ kp d leg s e Hs He Hd HL). }
  destruct (Hrun d1 Hd1) as (per1 & Hm1 & H1).
  destruct (Hrun d2 Hd2) as (per2 & Hm2 & H2).
  exists (concat per1), (concat per2).
  rewrite !(get_kpoints_unfold self kp _ Hkp), Hm1, Hm2.
  split; [reflexivity |]. split; [reflexivity |].
  eapply concat_length_le; [| exact H1 | exact H2].
  intros leg a b Ha Hb.
  destruct Ha as (s & e & Hs & He & Hlen & _).
  destruct Hb as (s' & e' & Hs' & He' & Hlen' & _).
  rewrite Hs in Hs'. rewrite He in He'. injection Hs' as <-. injection He' as <-.
  assert (Hmono : (leg_steps (_prim_rec self) d1 s e <=
                   leg_steps (_prim_rec self) d2 s e)%Z).
  { unfold leg_steps. apply ceil_mono.
    pose proof (norm_nonneg (vsub (get_cartesian_coords (_prim_rec self) s)
                                  (get_cartesian_coords (_prim_rec self) e))) as Hnn.
    fold (leg_length (_prim_rec self) s e) in Hnn. nra. }
  lia.
Qed.

Lemma X12_density_monotone_witness :
  exists pts1 pts2,
    get_kpoints (assign cubic (fresh cubic_a2pi)) 10 = Ok pts1 /\
    get_kpoints (assign cubic (fresh cubic_a2pi)) 20 = Ok pts2 /\
    (length pts1 <= length pts2)%nat.
Proof.
  apply (X12_density_monotone (assign cubic (fresh cubic_a2pi))
                              (snd (cubic (fresh cubic_a2pi))) 10 20).
  - reflexivity.
  - lra.
  - lra.
  - repeat (apply Forall_cons; split;
            [eexists _, _; split; [reflexivity |]; split; [reflexivity |];
             unfold leg_length, norm; simpl; float_values;
             apply sqrt_lt_R0; lra |]).
    apply Forall_nil. exact I.
Defined.

Lemma variant_has_leg (a b c alpha : R) (m : method KPath) (self : HighSymmKpath) :
  m ∈ variant_methods a b c alpha ->
  exists leg rest, all_legs (snd (m self)) = leg :: rest.
Proof.
  intros Hin. unfold variant_methods in Hin.
  repeat (apply elem_of_cons in Hin as [-> | Hin];
          [eexists _, _; reflexivity |]).
  apply elem_of_nil in Hin. contradiction.
Qed.

(** X13: at density 0 the sampler raises [ZeroDivisionError] for every
    supported input: the first leg already has [nb = 0]. *)
Theorem X13_density_zero (sym : SymmetryFinder) :
  ~ unsupported sym ->
  exists self,
    init sym = Ok self /\ get_kpoints self 0 = Raise ZeroDivisionError.
Proof.
  intros Hsup. exists (dispatch sym (fresh sym)). split; [reflexivity |].
  destruct (dispatch_cases sym) as [Hnone | (alpha & m & Hin & Hm)].
  - exfalso. apply Hsup, no_path_unsupported. rewrite Hnone. reflexivity.
  - rewrite Hm.
    set (kp := snd (m (fresh sym))).
    assert (Hkp : _kpath (assign m (fresh sym)) = Some kp).
    { unfold kp, assign. destruct (m (fresh sym)) as [s k]. reflexivity. }
    rewrite (get_kpoints_unfold _ kp 0 Hkp).
    destruct (variant_has_leg _ _ _ _ m (fresh sym) Hin) as ([l0 l1] & rest & Hlegs).
    fold kp in Hlegs.
    pose proof (legs_known_sound kp (variant_legs_known _ _ _ _ m (fresh sym) Hin))
      as Hknown.
    rewrite Hlegs in Hknown. apply Forall_cons in Hknown as [(s & e & Hs & He) _].
    cbn [fst snd] in Hs, He. rewrite Hlegs. cbn [mapM].
    rewrite (sample_leg_no_step _ kp 0 l0 l1 s e Hs He); [reflexivity |].
    unfold leg_steps. rewrite Rmult_0_r. apply ceil_0.
Qed.

Lemma hex_P_supported : ~ unsupported hex_P.
Proof.
  intros Hun. pose proof (unsupported_no_path hex_P Hun) as H. discriminate H.
Qed.

Lemma X13_density_zero_witness :
  exists self,
    init hex_P = Ok self /\ get_kpoints self 0 = Raise ZeroDivisionError.
Proof.
  apply (X13_density_zero hex_P). exact hex_P_supported.
Defined.

(** X14: when [L * d <= -1] on every leg, which takes a negative density,
    the sampler raises nothing and returns the empty list: [nb] is negative
    and [range(0, nb + 1)] is empty on every leg. *)
Theorem X14_negative_density (self : HighSymmKpath) (kp : KPath) (d : R) :
  _kpath self = Some kp ->
  Forall (fun leg => exists s e,
            kpoints kp !! fst leg = Some s /\
            kpoints kp !! snd leg = Some e /\
            leg_length (_prim_rec self) s e * d <= -1)
         (all_legs kp) ->
  get_kpoints self d = Ok [].
Proof.
  intros Hkp Hlegs.
  destruct (mapM_Forall2 (sample_leg (_prim_rec self) kp d)
                         (fun _ pts => pts = []) (all_legs kp))
    as (per_leg & Hmap & Hall).
  { eapply Forall_impl; [exact Hlegs |].
    intros [l0 l1] (s & e & Hs & He & HL). cbn [fst snd] in Hs, He.
    exists []. split; [| reflexivity].
    rewrite (sample_leg_unfold _ kp d l0 l1 s e Hs He).
    assert (Hn : (leg_steps (_prim_rec self) d s e <= -1)%Z)
      by (apply ceil_le_neg; exact HL).
    unfold range. rewrite seqZ_nil by lia. reflexivity. }
  rewrite (get_kpoints_unfold self kp d Hkp), Hmap. cbn. f_equal.
  clear Hmap Hlegs. induction Hall as [| leg pts l per -> _ IH]; [reflexivity | exact IH].
Qed.

Lemma X14_negative_density_witness :
  get_kpoints (assign cubic (fresh cubic_a2pi)) (-4) = Ok [].
Proof.
  apply (X14_negative_density (assign cubic (fresh cubic_a2pi))
                              (snd (cubic (fresh cubic_a2pi))) (-4)).
  - reflexivity.
  - repeat (apply Forall_cons; split;
            [eexists _, _; split; [reflexivity |]; split; [reflexivity |];
             unfold leg_length, norm; simpl; float_values;
             match goal with
             | |- sqrt ?q * _ <= _ =>
                 assert (Hs : 1 / 4 <= sqrt q) by
                   (replace (1 / 4) with (sqrt ((1 / 4) * (1 / 4)))
                      by (rewrite sqrt_square by lra; reflexivity);
                    apply sqrt_le_1_alt; lra);
                 lra
             end |]).
    apply Forall_nil. exact I.
Defined.

(** ** Short segments and unknown labels *)

Lemma legs_short (b : list string) : (length b < 2)%nat -> legs b = [].
Proof.
  destruct b as [| x [| y t]]; cbn; intros H; [reflexivity | reflexivity | lia].
Qed.

Lemma all_legs_drop_short (kp : KPath) : all_legs (drop_short kp) = all_legs kp.
Proof.
  unfold all_legs, drop_short. cbn [path].
  induction (path kp) as [| b l IH]; [reflexivity |].
  cbn [filter list_filter]. destruct (decide (2 <= length b)%nat) as [Hb | Hb].
  - cbn [fmap list_fmap concat]. f_equal. exact IH.
  - cbn [fmap list_fmap concat]. rewrite (legs_short b) by lia. exact IH.
Qed.

(** X15: segments with fewer than two labels are passed over: dropping
    them from the path does not change what the sampler returns, their
    labels are never looked up, and a path made of such segments only (the
    empty path included) gives the empty list. *)
Theorem X15_short_segments (self : HighSymmKpath) (kp : KPath) (d : R) :
  get_kpoints (set_kpath kp self) d = get_kpoints (set_kpath (drop_short kp) self) d /\
  (Forall (fun b : list string => (length b < 2)%nat) (path kp) ->
   get_kpoints (set_kpath kp self) d = Ok []).
Proof.
  split.
  - rewrite (get_kpoints_unfold _ kp d) by reflexivity.
    rewrite (get_kpoints_unfold _ (drop_short kp) d) by reflexivity.
    rewrite all_legs_drop_short. reflexivity.
  - intros Hshort. rewrite (get_kpoints_unfold _ kp d) by reflexivity.
    assert (Hnone : all_legs kp = []).
    { unfold all_legs. induction Hshort as [| b l Hb _ IH]; [reflexivity |].
      cbn [fmap list_fmap concat]. rewrite (legs_short b Hb). exact IH. }
    rewrite Hnone. reflexivity.
Qed.

(** X16: an unknown label stops the sampler with [KeyError] on that label:
    when the legs before a leg sample without error, an unknown start label
    raises [KeyError] for it, and with a known start an unknown end label
    raises [KeyError] for the end. *)
Theorem X16_unknown_label (self : HighSymmKpath) (kp : KPath) (d : R)
  (before after : list (string * string)) (leg : string * string) :
  _kpath self = Some kp ->
  all_legs kp = (before ++ leg :: after)%list ->
  Forall (fun l => exists pts, sample_leg (_prim_rec self) kp d l = Ok pts) before ->
  (kpoints kp !! fst leg = None ->
   get_kpoints self d = Raise (KeyError (fst leg))) /\
  (is_Some (kpoints kp !! fst leg) -> kpoints kp !! snd leg = None ->
   get_kpoints self d = Raise (KeyError (snd leg))).
Proof.
  intros Hkp Hlegs Hbefore.
  assert (Hstop : forall err, sample_leg (_prim_rec self) kp d leg = Raise err ->
                              get_kpoints self d = Raise err).
  { intros err Hleg. rewrite (get_kpoints_unfold self kp d Hkp), Hlegs.
    rewrite (mapM_raise _ _ _ _ err); [reflexivity | | exact Hleg].
    eapply Forall_impl; [exact Hbefore |]. intros l Hl. right. exact Hl. }
  split.
  - intros Hs. apply Hstop. unfold sample_leg, getitem. rewrite Hs. reflexivity.
  - intros [s Hs] He. apply Hstop. unfold sample_leg, getitem.
    rewrite Hs, He. reflexivity.
Qed.

Lemma X16_unknown_label_witness :
  get_kpoints (set_kpath dangling (fresh cubic_a1)) 20 = Raise (KeyError "B").
Proof.
  apply (X16_unknown_label (set_kpath dangling (fresh cubic_a1)) dangling 20
                           [] [] ("A", "B")).
  - reflexivity.
  - reflexivity.
  - apply Forall_nil. exact I.
  - eexists. reflexivity.
  - reflexivity.
Defined.

(** * Further properties of the variants *)

(** ** Face-centred orthorhombic: ORCF1 and ORCF3 *)

(** X17: ORCF3 has the point dictionary of ORCF1, computed by the same
    formulas from the same lengths, and the path of ORCF1 without its
    segment from T to X_1. *)
Theorem X17_orcf3_from_orcf1 (self : HighSymmKpath) (a b c : R) :
  let kp1 := snd (orcf1 a b c self) in
  let kp3 := snd (orcf3 a b c self) in
  kpoints kp3 = kpoints kp1 /\
  exists first rest,
    path kp1 = first :: ["T"; "X_1"] :: rest /\ path kp3 = first :: rest.
Proof.
  intros kp1 kp3. split; [reflexivity |].
  eexists _, _. split; reflexivity.
Qed.

(** ** Body-centred tetragonal and the sampler *)

(** X18: for every body-centred tetragonal input with [c = a] the sampler
    raises [ZeroDivisionError], at every density: BCT2 is selected, its
    points Y and Sigma are both (-1/2, 1/2, 1/2), and the leg from Y to
    Sigma has [nb = 0]. *)
Theorem X18_bct_tie_raises (sym : SymmetryFinder) (d : R) :
  get_lattice_type sym = "tetragonal" ->
  str_in "I" (get_spacegroup_symbol sym) = true ->
  let a := fst3 (abc (conv_lattice sym)) in
  let c := thd3 (abc (conv_lattice sym)) in
  c = a -> a <> 0 ->
  exists self,
    init sym = Ok self /\
    name self = Ok "BCT2" /\
    get_kpoints self d = Raise ZeroDivisionError.
Proof.
  intros Hty HI a c Hca Ha.
  set (self := assign (bctet2 a a) (fresh sym)).
  assert (Hinit : init sym = Ok self).
  { unfold init. rewrite (dispatch_tetragonal_I sym Hty HI). fold a c.
    rewrite Hca. compare_reals. reflexivity. }
  exists self. split; [exact Hinit |]. split; [reflexivity |].
  apply bctet2_tie_raises. exact Ha.
Qed.

Lemma X18_bct_tie_raises_witness :
  exists self,
    init (bct_tie (orthogonal_cell 1 1 1) (orthogonal_cell 1 1 1)) = Ok self /\
    name self = Ok "BCT2" /\
    get_kpoints self 20 = Raise ZeroDivisionError.
Proof.
  apply (X18_bct_tie_raises (bct_tie (orthogonal_cell 1 1 1) (orthogonal_cell 1 1 1)) 20);
    [reflexivity | reflexivity | reflexivity
    | unfold bct_tie; real_lengths; lra].
Defined.

(** ** The zone centre *)

(** X20: in the dictionary of every variant, for all parameters, the label
    Gamma is a key and its point is the origin. *)
Theorem X20_gamma_is_origin (self : HighSymmKpath) (a b c alpha : R) :
  Forall (fun kp => kpoints kp !! "\Gamma" = Some (0, 0, 0))
         (all_variants self a b c alpha).
Proof.
  assert (H0 : ((0, 0, 0) : vec3) = (0.0, 0.0, 0.0))
    by (f_equal; [f_equal |]; lra).
  rewrite H0. unfold all_variants. cbn [fmap list_fmap].
  repeat (apply Forall_cons; split; [vm_compute; reflexivity |]).
  apply Forall_nil. exact I.
Qed.
